(** * nba_mvp.py: player statistics, filtering and ranking

    A shallow embedding of [src/nba_mvp.py].  The script keeps every player
    as a Python [dict] (column name to display string) inside a Python
    [list]; both are mutable heap objects handled by reference.  The
    embedding therefore threads an object store through every function:
    a list object holds references, a [dict] object holds its items in
    insertion order, [sorted], slicing and the accumulator lists allocate
    fresh objects, and [print] appends to the standard output.

    What the script takes from outside is kept as an interface:
    - Python's [float] type ([float(str)], [sum], [<]), class [PyFloat];
    - [re.search(pattern, text, re.IGNORECASE)], class [PyRe];
    - the two tables BeautifulSoup finds in the page, given to
      [get_player_stats] as the lists of their rows. *)

From Stdlib Require Import ZArith Lia String Ascii List Permutation Sorted.
From Stdlib Require Import Floats.PrimFloat Floats.SpecFloat.
From Stdlib Require Import Floats.FloatAxioms Uint63.
From stdpp Require Import base list strings sorting.

Import ListNotations.
Local Open Scope string_scope.
Local Open Scope list_scope.
Local Open Scope nat_scope.

(** ** Exceptions and results *)

(** The exceptions the script's own statements can raise. *)
Inductive exn : Type :=
  | IndexError   (* list index out of range *)
  | KeyError     (* missing dict key *)
  | ValueError   (* float() of a string that is not a number *)
  | TypeError    (* operation applied to an object of the wrong type *)
  | re_error.    (* re.error: the pattern is not a regular expression *)

Inductive result (A : Type) : Type :=
  | Ok (a : A)
  | Raise (e : exn).
Arguments Ok {A} a.
Arguments Raise {A} e.

(** ** Python values used by the script *)

(** A [str] is held as the bytes of its UTF-8 encoding.  The characters
    for which [str.isspace] holds are U+0009-000D, U+001C-0020, U+0085,
    U+00A0, U+1680, U+2000-200A, U+2028, U+2029, U+202F, U+205F and U+3000;
    their encodings take one, two or three bytes. *)
Definition is_space (c : ascii) : bool :=
  let n := nat_of_ascii c in
  ((9 <=? n) && (n <=? 13)) || ((28 <=? n) && (n <=? 32)).

Definition is_space2 (c1 c2 : ascii) : bool :=
  let n2 := nat_of_ascii c2 in
  (nat_of_ascii c1 =? 194) && ((n2 =? 133) || (n2 =? 160)).

Definition is_space3 (c1 c2 c3 : ascii) : bool :=
  let n1 := nat_of_ascii c1 in
  let n2 := nat_of_ascii c2 in
  let n3 := nat_of_ascii c3 in
  ((n1 =? 225) && (n2 =? 154) && (n3 =? 128))
  || ((n1 =? 226) && (n2 =? 128)
      && (((128 <=? n3) && (n3 <=? 138))
          || (n3 =? 168) || (n3 =? 169) || (n3 =? 175)))
  || ((n1 =? 226) && (n2 =? 129) && (n3 =? 159))
  || ((n1 =? 227) && (n2 =? 128) && (n3 =? 128)).

(** The leading whitespace removed; [space1] says which characters of one
    byte count. *)
Fixpoint lstrip_chars (space1 : ascii -> bool) (l : list ascii)
    : list ascii :=
  match l with
  | [] => []
  | c1 :: l1 =>
      if space1 c1 then lstrip_chars space1 l1
      else
        match l1 with
        | [] => l
        | c2 :: l2 =>
            if is_space2 c1 c2 then lstrip_chars space1 l2
            else
              match l2 with
              | [] => l
              | c3 :: l3 =>
                  if is_space3 c1 c2 c3 then lstrip_chars space1 l3 else l
              end
        end
  end.

(** The same from the end: [l] holds the bytes from the last to the
    first. *)
Fixpoint rstrip_chars (space1 : ascii -> bool) (l : list ascii)
    : list ascii :=
  match l with
  | [] => []
  | c1 :: l1 =>
      if space1 c1 then rstrip_chars space1 l1
      else
        match l1 with
        | [] => l
        | c2 :: l2 =>
            if is_space2 c2 c1 then rstrip_chars space1 l2
            else
              match l2 with
              | [] => l
              | c3 :: l3 =>
                  if is_space3 c3 c2 c1 then rstrip_chars space1 l3 else l
              end
        end
  end.

Definition strip_with (space1 : ascii -> bool) (s : string) : string :=
  string_of_list_ascii
    (rev (rstrip_chars space1
            (rev (lstrip_chars space1 (list_ascii_of_string s))))).

(** [str.strip()]: leading and trailing whitespace removed. *)
Definition strip (s : string) : string := strip_with is_space s.

(** A [dict] with string keys and string values, items in insertion order. *)
Definition dict : Type := list (string * string).

Fixpoint dict_lookup (d : dict) (k : string) : option string :=
  match d with
  | [] => None
  | (k', v) :: d' => if String.eqb k' k then Some v else dict_lookup d' k
  end.

Definition dict_keys (d : dict) : list string := map fst d.

(** [seq[i]] for a literal index [i >= 0] on a sequence held by value. *)
Definition seq_getitem {A} (l : list A) (i : nat) : result A :=
  match l !! i with
  | Some x => Ok x
  | None => Raise IndexError
  end.

(** [seq[:k]]: a negative [k] counts from the end. *)
Definition slice_to {A} (l : list A) (k : Z) : list A :=
  if (0 <=? k)%Z then take (Z.to_nat k) l
  else take (length l - Z.to_nat (- k)) l.

(** ** The interfaces the script relies on *)

(** Python's [float].  [py_float s] is [float(s)] on a string; [None] is
    [ValueError].  [py_sum] is the builtin [sum] over floats, [py_lt] is
    [<], [py_isnan] is [math.isnan]. *)
Class PyFloat : Type := {
  pyfloat : Type;
  py_float : string -> option pyfloat;
  py_sum : list pyfloat -> pyfloat;
  py_lt : pyfloat -> pyfloat -> bool;
  py_isnan : pyfloat -> bool
}.

(** What the ranking needs of [<]: a strict order in which every number that
    is not a NaN is comparable with the numbers around it.  The comparison
    of IEEE 754 has these properties (instance [ieee_laws] below). *)
Class PyFloatLaws (F : PyFloat) : Prop := {
  py_lt_irrefl : forall x, py_lt x x = false;
  py_lt_trans : forall x y z,
    py_lt x y = true -> py_lt y z = true -> py_lt x z = true;
  py_lt_cotrans : forall x y z,
    py_isnan z = false -> py_lt x y = true ->
    py_lt x z = true \/ py_lt z y = true
}.

(** [re.search(pattern, text, re.IGNORECASE)], as the truth value of the
    returned match object; a pattern that does not compile raises
    [re.error]. *)
Class PyRe : Type := {
  re_search_ignorecase : string -> string -> result bool
}.

(** ASCII lower case and substring search, to state what [re.search] does
    on a pattern without metacharacters. *)
Definition ascii_lower (c : ascii) : ascii :=
  let n := nat_of_ascii c in
  if (65 <=? n) && (n <=? 90) then ascii_of_nat (n + 32) else c.

Fixpoint lower (s : string) : string :=
  match s with
  | EmptyString => EmptyString
  | String c s' => String (ascii_lower c) (lower s')
  end.

Fixpoint contains (s sub : string) : bool :=
  String.prefix sub s ||
  match s with
  | EmptyString => false
  | String _ s' => contains s' sub
  end.

Definition is_literal_char (c : ascii) : bool :=
  let n := nat_of_ascii c in
  ((48 <=? n) && (n <=? 57)) || ((65 <=? n) && (n <=? 90)) ||
  ((97 <=? n) && (n <=? 122)) || (n =? 32).

Fixpoint string_forallb (f : ascii -> bool) (s : string) : bool :=
  match s with
  | EmptyString => true
  | String c s' => f c && string_forallb f s'
  end.

Definition is_literal (s : string) : bool := string_forallb is_literal_char s.
Definition is_ascii (s : string) : bool :=
  string_forallb (fun c => nat_of_ascii c <? 128) s.

(** A pattern of ASCII letters, digits and spaces matches an ASCII text
    exactly when it occurs in it up to case; the empty pattern matches
    everywhere. *)
Class PyReLaws (R : PyRe) : Prop := {
  re_search_empty : forall text, re_search_ignorecase "" text = Ok true;
  re_search_literal : forall pattern text,
    is_literal pattern = true -> is_ascii text = true ->
    re_search_ignorecase pattern text
    = Ok (contains (lower text) (lower pattern))
}.

(** ** The object store *)

(** Addresses are positions in the store. *)
Abbreviation loc := nat (only parsing).

Inductive obj : Type :=
  | ODict (d : dict)
  | OList (l : list loc).

Record state : Type := mkState {
  heap : list obj;        (* the object at address [i] is [heap !! i] *)
  stdout : list string    (* the lines printed so far *)
}.

Definition M (A : Type) : Type := state -> state * result A.

Definition ret {A} (a : A) : M A := fun s => (s, Ok a).

Definition raise {A} (e : exn) : M A := fun s => (s, Raise e).

Definition bind {A B} (m : M A) (k : A -> M B) : M B :=
  fun s =>
    match m s with
    | (s', Ok a) => k a s'
    | (s', Raise e) => (s', Raise e)
    end.

Notation "x <- m ;; k" := (bind m (fun x => k))
  (at level 100, m at next level, right associativity, only parsing).
Notation "m ;;; k" := (bind m (fun _ => k))
  (at level 100, right associativity, only parsing).

Definition lift {A} (r : result A) : M A := fun s => (s, r).

(** A new object gets the next free address. *)
Definition alloc (o : obj) : M loc :=
  fun s => (mkState (heap s ++ [o]) (stdout s), Ok (length (heap s))).

(** A reference that names no object does not occur in a Python state; the
    model answers it like an operand of the wrong type. *)
Definition load (l : loc) : M obj :=
  fun s =>
    match heap s !! l with
    | Some o => (s, Ok o)
    | None => (s, Raise TypeError)
    end.

Definition store (l : loc) (o : obj) : M unit :=
  fun s => (mkState (<[l:=o]> (heap s)) (stdout s), Ok tt).

Definition print (line : string) : M unit :=
  fun s => (mkState (heap s) (stdout s ++ [line]), Ok tt).

(** The items of a list object.  The script passes lists where this is
    used; on a dict the model answers [TypeError]. *)
Definition list_items (l : loc) : M (list loc) :=
  o <- load l ;;
  match o with
  | OList xs => ret xs
  | ODict _ => raise TypeError
  end.

(** [l.append(x)] *)
Definition list_append (l x : loc) : M unit :=
  xs <- list_items l ;;
  store l (OList (xs ++ [x])).

(** [l[i]] for a literal index [i >= 0]. *)
Definition list_getitem (l : loc) (i : nat) : M loc :=
  xs <- list_items l ;;
  lift (seq_getitem xs i).

(** [l[:k]], a new list object. *)
Definition list_slice_to (l : loc) (k : Z) : M loc :=
  xs <- list_items l ;;
  alloc (OList (slice_to xs k)).

(** [p[key]] on a dict object. *)
Definition dict_getitem (p : loc) (key : string) : M string :=
  o <- load p ;;
  match o with
  | ODict d =>
      match dict_lookup d key with
      | Some v => ret v
      | None => raise KeyError
      end
  | OList _ => raise TypeError
  end.

(** [p.keys()] on a dict object. *)
Definition dict_keys_of (p : loc) : M (list string) :=
  o <- load p ;;
  match o with
  | ODict d => ret (dict_keys d)
  | OList _ => raise TypeError
  end.

(** [for x in xs: body(x)] over the items read when the loop starts.  The
    loops of the script append only to a list allocated by the function
    itself, never to the list they iterate. *)
Fixpoint for_each {A} (xs : list A) (body : A -> M unit) : M unit :=
  match xs with
  | [] => ret tt
  | x :: xs' => body x ;;; for_each xs' body
  end.

(** The values of [f(x) for x in xs], computed left to right. *)
Fixpoint map_m {A B} (f : A -> M B) (xs : list A) : M (list B) :=
  match xs with
  | [] => ret []
  | x :: xs' => y <- f x ;; ys <- map_m f xs' ;; ret (y :: ys)
  end.

(** ** [sorted(iterable, key=..., reverse=True)] *)

(** CPython computes the key of every item first, then sorts the items by
    their keys with a stable sort that only asks [<]; with [reverse=True]
    it reverses the list before and after, so that equal keys keep the
    order of the input.  The stable sort is written as the insertion sort
    CPython applies to short runs: each item goes after the items that are
    not greater than it.  On keys without NaN every stable sort gives this
    result (lemma [sorted_descending_functional] below). *)
Section Sorting.
Context {K A : Type} (lt : K -> K -> bool).

Fixpoint insert_by (x : K * A) (l : list (K * A)) : list (K * A) :=
  match l with
  | [] => [x]
  | y :: l' => if lt (fst x) (fst y) then x :: l else y :: insert_by x l'
  end.

Definition sort_by (l : list (K * A)) : list (K * A) :=
  fold_left (fun acc x => insert_by x acc) l [].

Definition sort_keyed (reverse : bool) (l : list (K * A)) : list (K * A) :=
  if reverse then rev (sort_by (rev l)) else sort_by l.
End Sorting.

Section Program.
Context {F : PyFloat} {R : PyRe}.

(** [float(v)] *)
Definition to_float (v : string) : M pyfloat :=
  match py_float v with
  | Some x => ret x
  | None => raise ValueError
  end.

(** [sorted(iterable, key=key, reverse=reverse)]: a new list object. *)
Definition py_sorted (iterable : loc) (key : loc -> M pyfloat)
    (reverse : bool) : M loc :=
  xs <- list_items iterable ;;
  new <- alloc (OList xs) ;;
  ks <- map_m key xs ;;
  store new (OList (map snd (sort_keyed py_lt reverse (combine ks xs)))) ;;;
  ret new.

(** *** get_player_stats *)

(** The dict literal of lines 42-49. *)
Definition player_dict (player_name points field_goal_percentage
    three_point_percentage rebounds assists : string) : dict :=
  [ ("Player", player_name);
    ("Points", points);
    ("Field Goal Percentage", field_goal_percentage);
    ("Three Point Percentage", three_point_percentage);
    ("Rebounds", rebounds);
    ("Assists", assists) ].

(** [columns[i].text.strip()] *)
Definition column_text (columns : list string) (i : nat) : M string :=
  c <- lift (seq_getitem columns i) ;;
  ret (strip c).

(** The body of the loop of lines 26-49.  A row of the names table is
    given by the text of its [a.AnchorLink] element, if it has one; a row
    of the statistics table by the texts of its [td] cells. *)
Definition get_player_stats_row (player_stats : loc)
    (row : option string * list string) : M unit :=
  let (player_name_column, columns) := row in
  let player_name :=
    match player_name_column with
    | Some text => strip text
    | None => "N/A"
    end in
  if length columns <? 9 then
    print "Invalid row, skipping..."
  else
    points <- column_text columns 3 ;;
    field_goal_percentage <- column_text columns 6 ;;
    three_point_percentage <- column_text columns 9 ;;
    rebounds <- column_text columns 13 ;;
    assists <- column_text columns 14 ;;
    player <- alloc (ODict (player_dict player_name points
                field_goal_percentage three_point_percentage
                rebounds assists)) ;;
    list_append player_stats player.

(** [names_trs] and [stats_trs] are the [tr] rows of the two tables of the
    page; the first row of each is its header. *)
Definition get_player_stats (names_trs : list (option string))
    (stats_trs : list (list string)) : M loc :=
  let name_rows := tail names_trs in
  let stat_rows := stats_trs in
  player_stats <- alloc (OList []) ;;
  for_each (combine name_rows (tail stat_rows))
    (get_player_stats_row player_stats) ;;;
  ret player_stats.

(** *** calculate_mvp *)

(** [lambda p: float(p['Points'])] *)
Definition key_points (p : loc) : M pyfloat :=
  v <- dict_getitem p "Points" ;;
  to_float v.

(** [lambda p: sum(float(p[key]) for key in p.keys() if key != 'Player')] *)
Definition key_overall (p : loc) : M pyfloat :=
  keys <- dict_keys_of p ;;
  vals <- map_m (fun key => v <- dict_getitem p key ;; to_float v)
            (List.filter (fun key => negb (String.eqb key "Player")) keys) ;;
  ret (py_sum vals).

Definition calculate_mvp (player_stats : loc) (top_count : Z)
    : M (loc * loc * loc * loc) :=
  sorted_players_by_points <- py_sorted player_stats key_points true ;;
  top_players <- list_slice_to sorted_players_by_points top_count ;;
  sorted_players_by_overall <- py_sorted player_stats key_overall true ;;
  best_player <- list_getitem sorted_players_by_overall 0 ;;
  second_place <- list_getitem sorted_players_by_overall 1 ;;
  third_place <- list_getitem sorted_players_by_overall 2 ;;
  ret (top_players, best_player, second_place, third_place).

(** *** filter_players *)

Definition filter_players_body (regex_pattern : string)
    (filtered_stats : loc) (player : loc) : M unit :=
  name <- dict_getitem player "Player" ;;
  found <- lift (re_search_ignorecase regex_pattern name) ;;
  if found then list_append filtered_stats player else ret tt.

Definition filter_players (player_stats : loc) (regex_pattern : string)
    : M loc :=
  filtered_stats <- alloc (OList []) ;;
  players <- list_items player_stats ;;
  for_each players (filter_players_body regex_pattern filtered_stats) ;;;
  ret filtered_stats.

(** *** The script body *)

(** Lines 107-108: the filter runs only for a non-empty pattern. *)
Definition filter_stage (stats : loc) (pattern : string) : M loc :=
  if negb (String.eqb pattern "") then filter_players stats pattern
  else ret stats.

(** The six lines printed for one player, and the separator. *)
Definition print_player (player : loc) : M unit :=
  name <- dict_getitem player "Player" ;;
  print ("Player: " ++ name) ;;;
  points <- dict_getitem player "Points" ;;
  print ("Points: " ++ points) ;;;
  fg <- dict_getitem player "Field Goal Percentage" ;;
  print ("Field Goal Percentage: " ++ fg) ;;;
  tp <- dict_getitem player "Three Point Percentage" ;;
  print ("Three Point Percentage: " ++ tp) ;;;
  rebounds <- dict_getitem player "Rebounds" ;;
  print ("Rebounds: " ++ rebounds) ;;;
  assists <- dict_getitem player "Assists" ;;
  print ("Assists: " ++ assists) ;;;
  print "------------------------".

(** Lines 105-149, with [args.pattern] and [args.top] as parameters. *)
Definition main (names_trs : list (option string))
    (stats_trs : list (list string)) (pattern : string) (top : Z)
    : M unit :=
  stats <- get_player_stats names_trs stats_trs ;;
  stats <- filter_stage stats pattern ;;
  r <- calculate_mvp stats top ;;
  let '(top_players, best_player, second_place, third_place) := r in
  print "Top Players:" ;;;
  players <- list_items top_players ;;
  for_each players print_player ;;;
  print "Player with the Best Overall Stats:" ;;;
  print_player best_player ;;;
  print "Second Place:" ;;;
  print_player second_place ;;;
  print "Third Place:" ;;;
  print_player third_place ;;;
  name <- dict_getitem best_player "Player" ;;
  print ("The NBA MVP should be: " ++ name).
End Program.

(** ** Instances of the interfaces *)

(** *** IEEE 754 binary64 *)

(** Plain decimal literals: an optional sign, digits, at most one point, at
    least one digit; surrounding whitespace is ignored, as [float] does.
    The result is the sign, the digits read as one integer, and the number
    of digits after the point. *)
Definition digit_value (c : ascii) : option N :=
  let n := nat_of_ascii c in
  if (48 <=? n) && (n <=? 57) then Some (N.of_nat (n - 48)) else None.

Fixpoint digits_value (l : list ascii) (acc : N) : option N :=
  match l with
  | [] => Some acc
  | c :: l' =>
      match digit_value c with
      | Some d => digits_value l' (10 * acc + d)%N
      | None => None
      end
  end.

Fixpoint split_point (l : list ascii) : list ascii * list ascii :=
  match l with
  | [] => ([], [])
  | c :: l' =>
      if Ascii.eqb c "."%char then ([], l')
      else let (a, b) := split_point l' in (c :: a, b)
  end.

(** [float()] skips leading and trailing whitespace; of the characters of
    one byte these are U+0009-000D and U+0020 only. *)
Definition is_float_space (c : ascii) : bool :=
  let n := nat_of_ascii c in
  ((9 <=? n) && (n <=? 13)) || (n =? 32).

Definition parse_decimal (s : string) : option (bool * N * nat) :=
  let l := list_ascii_of_string (strip_with is_float_space s) in
  let (negative, body) :=
    match l with
    | c :: r =>
        if Ascii.eqb c "-"%char then (true, r)
        else if Ascii.eqb c "+"%char then (false, r)
        else (false, l)
    | [] => (false, l)
    end in
  let (int_part, frac_part) := split_point body in
  if length int_part + length frac_part =? 0 then None
  else
    match digits_value (int_part ++ frac_part) 0 with
    | Some m => Some (negative, m, length frac_part)
    | None => None
    end.

(** A decimal with fewer than 2^53 as its digits and at most 18 decimals is
    the quotient of two integers that binary64 holds exactly, so one
    correctly rounded division gives the float that [float()] returns.
    Other strings are outside this instance: it reads them as errors, and
    the examples below use none that Python accepts. *)
Definition ieee_of_decimal (d : bool * N * nat) : option PrimFloat.float :=
  let '(negative, m, k) := d in
  if (m <? 2 ^ 53)%N && (k <=? 18) then
    let q := PrimFloat.div (PrimFloat.of_uint63 (Uint63.of_Z (Z.of_N m)))
               (PrimFloat.of_uint63 (Uint63.of_Z (10 ^ Z.of_nat k))) in
    Some (if negative then PrimFloat.opp q else q)
  else None.

Definition ieee_float (s : string) : option PrimFloat.float :=
  match parse_decimal s with
  | Some d => ieee_of_decimal d
  | None => None
  end.

(** [sum] adds from the left, starting at 0.  (Python 3.12 and later
    compensate the rounding errors of the partial sums; the two agree when
    the partial sums are exact, as in the examples below.) *)
Definition ieee_sum (l : list PrimFloat.float) : PrimFloat.float :=
  fold_left PrimFloat.add l PrimFloat.zero.

#[export] Instance ieee : PyFloat := {|
  pyfloat := PrimFloat.float;
  py_float := ieee_float;
  py_sum := ieee_sum;
  py_lt := PrimFloat.ltb;
  py_isnan := PrimFloat.is_nan
|}.

(** *** Patterns without metacharacters *)

(** [re.search] restricted to patterns of letters, digits and spaces; any
    other pattern is outside this instance. *)
Definition literal_search (pattern text : string) : result bool :=
  if is_literal pattern then Ok (contains (lower text) (lower pattern))
  else Raise re_error.

#[export] Instance literal_re : PyRe := {|
  re_search_ignorecase := literal_search
|}.

(** * Vocabulary of the properties *)

(** ** Order and ranking *)

Section OrderVocabulary.
Context {K A : Type} (lt : K -> K -> bool).

(** Two keys are tied when neither is below the other. *)
Definition tied (c k : K) : bool := negb (lt c k) && negb (lt k c).

(** Ascending on the decorated items: no item is below an earlier one. *)
Definition ascending (l : list (K * A)) : Prop :=
  StronglySorted (fun a b => lt (fst b) (fst a) = false) l.

(** [r] holds the items of [l] in descending order of [key], items with
    tied keys in the order they have in [l]. *)
Record sorted_descending (key : A -> K) (l r : list A) : Prop := {
  sd_perm : Permutation r l;
  sd_desc : StronglySorted (fun a b => lt (key a) (key b) = false) r;
  sd_stable : forall a, In a l ->
    List.filter (fun b => tied (key a) (key b)) r
    = List.filter (fun b => tied (key a) (key b)) l
}.

(** What [sorted] returns when the keys of [l] are [map key l]. *)
Definition sorted_rev (key : A -> K) (l : list A) : list A :=
  map snd (sort_keyed lt true (combine (map key l) l)).

Definition decorate (key : A -> K) (x : A) : K * A := (key x, x).

End OrderVocabulary.

(** ** Results as functions of the store *)

(** The results of a sequence of evaluations, up to the first exception. *)
Fixpoint map_result {A B} (g : A -> result B) (xs : list A)
    : result (list B) :=
  match xs with
  | [] => Ok []
  | x :: xs' =>
      match g x with
      | Raise e => Raise e
      | Ok y =>
          match map_result g xs' with
          | Ok ys => Ok (y :: ys)
          | Raise e => Raise e
          end
      end
  end.

Definition is_list (s : state) (l : loc) (xs : list loc) : Prop :=
  heap s !! l = Some (OList xs).

Definition is_dict (s : state) (p : loc) (d : dict) : Prop :=
  heap s !! p = Some (ODict d).

(** The dict at an address, if the object there is one. *)
Definition dict_at (h : list obj) (p : loc) : option dict :=
  match h !! p with
  | Some (ODict d) => Some d
  | _ => None
  end.

(** [p[key]] as a function of the store. *)
Definition getitem_result (h : list obj) (p : loc) (key : string)
    : result string :=
  match dict_at h p with
  | Some d =>
      match dict_lookup d key with
      | Some v => Ok v
      | None => Raise KeyError
      end
  | None => Raise TypeError
  end.

(** A result that is an exception other than [IndexError]. *)
Definition raises_other_than_index_error {A} (r : result A) : Prop :=
  exists e, r = Raise e /\ e <> IndexError.

(** ** Players *)

(** The record behind a player dict: the display strings of one row. *)
Record Player : Type := mkPlayer {
  name : string;
  points : string;
  field_goal_pct : string;
  three_point_pct : string;
  rebounds : string;
  assists : string
}.

Definition dict_of_player (pl : Player) : dict :=
  player_dict (name pl) (points pl) (field_goal_pct pl)
    (three_point_pct pl) (rebounds pl) (assists pl).

Definition is_player (s : state) (p : loc) (pl : Player) : Prop :=
  is_dict s p (dict_of_player pl).

Section FloatVocabulary.
Context {F : PyFloat}.

Definition float_result (v : string) : result pyfloat :=
  match py_float v with
  | Some x => Ok x
  | None => Raise ValueError
  end.

(** [float(p[key])] as a function of the store. *)
Definition field_result (h : list obj) (p : loc) (key : string)
    : result pyfloat :=
  match getitem_result h p key with
  | Ok v => float_result v
  | Raise e => Raise e
  end.

Definition points_result (h : list obj) (p : loc) : result pyfloat :=
  field_result h p "Points".

Definition overall_result (h : list obj) (p : loc) : result pyfloat :=
  match dict_at h p with
  | Some d =>
      match map_result (field_result h p)
              (List.filter (fun key => negb (String.eqb key "Player"))
                 (dict_keys d)) with
      | Ok vals => Ok (py_sum vals)
      | Raise e => Raise e
      end
  | None => Raise TypeError
  end.

(** The list [sorted] builds from the keys [ks] of the items [xs]. *)
Definition ranking (ks : list pyfloat) (xs : list loc) : list loc :=
  map snd (sort_keyed py_lt true (combine ks xs)).

Definition points_value (pl : Player) : option pyfloat :=
  py_float (points pl).

(** The overall score: the sum of the five numeric fields. *)
Definition overall_score (pl : Player) : option pyfloat :=
  match py_float (points pl), py_float (field_goal_pct pl),
        py_float (three_point_pct pl), py_float (rebounds pl),
        py_float (assists pl) with
  | Some pts, Some fg, Some tp, Some reb, Some ast =>
      Some (py_sum [pts; fg; tp; reb; ast])
  | _, _, _, _, _ => None
  end.

Definition option_result (o : option pyfloat) : result pyfloat :=
  match o with
  | Some x => Ok x
  | None => Raise ValueError
  end.

End FloatVocabulary.

Section SearchVocabulary.
Context {R : PyRe}.

(** Whether the pattern is found in the name of the player at [p]. *)
Definition search_result (h : list obj) (pattern : string) (p : loc)
    : result bool :=
  match getitem_result h p "Player" with
  | Ok player_name => re_search_ignorecase pattern player_name
  | Raise e => Raise e
  end.

End SearchVocabulary.

(** ** What [get_player_stats] keeps and prints *)

(** The player made from a row that has all the cells the loop reads. *)
Definition player_of_row (row : option string * list string) : Player :=
  let (player_name_column, columns) := row in
  mkPlayer
    (match player_name_column with
     | Some text => strip text
     | None => "N/A"
     end)
    (strip (nth 3 columns "")) (strip (nth 6 columns ""))
    (strip (nth 9 columns "")) (strip (nth 13 columns ""))
    (strip (nth 14 columns "")).

Definition short_row (row : option string * list string) : bool :=
  length (snd row) <? 9.

(** A row that has all the cells the loop reads. *)
Definition long_row (row : option string * list string) : bool :=
  15 <=? length (snd row).

Definition kept_players (rows : list (option string * list string))
    : list Player :=
  map player_of_row (List.filter (fun row => negb (short_row row)) rows).

Definition diagnostics (rows : list (option string * list string))
    : list string :=
  map (fun _ => "Invalid row, skipping...") (List.filter short_row rows).

Definition player_objects (pls : list Player) : list obj :=
  map (fun pl => ODict (dict_of_player pl)) pls.

(** ** Rows on which the loop of [get_player_stats] stops *)

(** A row that passes the length check of line 32 and has no cell 14. *)
Definition bad_row (row : option string * list string) : bool :=
  (9 <=? length (snd row)) && (length (snd row) <? 15).

(** The rows before the first such row. *)
Fixpoint good_prefix (rows : list (option string * list string))
    : list (option string * list string) :=
  match rows with
  | [] => []
  | row :: rows' => if bad_row row then [] else row :: good_prefix rows'
  end.

(** ** The lines of the report *)




(** ** Example data *)

(** The three players of the specification's example, stored at the
    addresses 0, 1 and 2, and a list object holding them in this order. *)
Definition player_A : Player := mkPlayer "A" "30" "50" "40" "10" "5".
Definition player_B : Player := mkPlayer "B" "25" "60" "45" "12" "8".
Definition player_C : Player := mkPlayer "C" "20" "40" "30" "5" "3".

Definition example_state : state :=
  mkState [ ODict (dict_of_player player_A);
            ODict (dict_of_player player_B);
            ODict (dict_of_player player_C);
            OList [0; 1; 2] ] [].

(** The same store with a list of two players and an empty list. *)
Definition short_state : state :=
  mkState [ ODict (dict_of_player player_A);
            ODict (dict_of_player player_B);
            OList [0; 1];
            OList [] ] [].

Definition example_points (p : loc) : PrimFloat.float :=
  nth p [30%float; 25%float; 20%float] 0%float.

Definition example_overall (p : loc) : PrimFloat.float :=
  nth p [135%float; 150%float; 98%float] 0%float.

(** The example store with a second list holding the players in reverse
    order. *)
Definition reversal_state : state :=
  mkState (heap example_state ++ [OList [2; 1; 0]]) [].

(** A statistics row of fifteen cells with the given texts in the cells
    the script reads (3, 6, 9, 13 and 14). *)
Definition stat_row (pts fg tp reb ast : string) : list string :=
  ["1"; "G"; "70"; pts; "9.1"; "18.2"; fg; "2.0"; "5.5"; tp;
   "4.0"; "5.0"; "80.0"; reb; ast].

(** The rows of the two tables for the players A, B and C. *)
Definition example_names : list (option string) :=
  [None; Some "A"; Some "B"; Some "C"].

Definition example_stats : list (list string) :=
  [ [];
    stat_row "30" "50" "40" "10" "5";
    stat_row "25" "60" "45" "12" "8";
    stat_row "20" "40" "30" "5" "3" ].

(** A row of fifteen cells whose points cell is not a number. *)
Definition unparsable_row : list string :=
  stat_row "--" "50.1" "36.4" "7.5" "6.1".

Definition unparsable_player : Player :=
  mkPlayer "A" "--" "50.1" "36.4" "7.5" "6.1".

(** A store with a player named "LeBron King". *)
Definition player_King : Player :=
  mkPlayer "LeBron King" "28.9" "50.0" "32.1" "8.3" "6.8".

Definition king_state : state :=
  mkState [ ODict (dict_of_player player_King);
            ODict (dict_of_player player_A);
            OList [0; 1] ] [].

(** A store with a dict that has no ['Points'] entry (address 1), a dict
    with a ['Steals'] entry (address 4), a dict with a ['Team'] entry that
    is no number (address 5), a list holding the first two (address 2) and
    a list holding a list (address 3). *)
Definition ragged_state : state :=
  mkState [ ODict (dict_of_player player_A);
            ODict [("Player", "X"); ("Rebounds", "4")];
            OList [0; 1];
            OList [0; 2];
            ODict [("Player", "Y"); ("Points", "1.5"); ("Steals", "2")];
            ODict [("Player", "Z"); ("Points", "1.5"); ("Team", "LAL")] ] [].

(** Rows of the two tables: one row that is kept and one short row. *)
Definition two_rows_names : list (option string) :=
  [None; Some "A"; Some "B"].

Definition two_rows_stats : list (list string) :=
  [[]; stat_row "30" "50" "40" "10" "5"; ["short"]].

(** * Properties *)

(** ** Whitespace *)

(** [strip] removes the no-break space U+00A0 (bytes C2 A0) and the
    ideographic space U+3000 (bytes E3 80 80) as it removes a blank, and
    [float()] skips them; the separator U+001C is removed by [strip] and
    not skipped by [float()]. *)
Lemma strip_unicode_space :
  let nbsp := string_of_list_ascii (map ascii_of_nat [194; 160]) in
  let wide := string_of_list_ascii (map ascii_of_nat [227; 128; 128]) in
  let fs := string_of_list_ascii [ascii_of_nat 28] in
  strip (nbsp ++ " 30.5" ++ fs ++ wide ++ nbsp)%string = "30.5"
  /\ ieee_float (nbsp ++ "30.5" ++ wide)%string = Some 30.5%float
  /\ ieee_float (fs ++ "30.5")%string = None.
Proof. repeat split; reflexivity. Qed.

(** ** The order of binary64 *)

Ltac compare_cases :=
  repeat match goal with
  | H : context [(?a ?= ?b)%Z] |- _ =>
      destruct (Z.compare_spec a b); try subst
  | |- context [(?a ?= ?b)%Z] =>
      destruct (Z.compare_spec a b); try subst
  | H : context [(?a ?= ?b)%positive] |- _ =>
      destruct (Pos.compare_spec a b); try subst
  | |- context [(?a ?= ?b)%positive] =>
      destruct (Pos.compare_spec a b); try subst
  end.

Ltac spec_float_order :=
  unfold SFltb, SFeqb, SFcompare; simpl;
  repeat match goal with
  | |- context [Pos.compare_cont Eq ?a ?b] =>
      change (Pos.compare_cont Eq a b) with (Pos.compare a b)
  end;
  intros; compare_cases; simpl in *; try congruence; try lia; auto.

Lemma SFltb_irrefl x : SFltb x x = false.
Proof. destruct x as [[]|[]| |[] m e]; spec_float_order. Qed.

Lemma SFltb_trans x y z :
  SFltb x y = true -> SFltb y z = true -> SFltb x z = true.
Proof.
  destruct x as [[]|[]| |[] m1 e1], y as [[]|[]| |[] m2 e2],
    z as [[]|[]| |[] m3 e3]; spec_float_order.
Qed.

Lemma SFltb_cotrans x y z :
  SFeqb z z = true -> SFltb x y = true ->
  SFltb x z = true \/ SFltb z y = true.
Proof.
  destruct x as [[]|[]| |[] m1 e1], y as [[]|[]| |[] m2 e2],
    z as [[]|[]| |[] m3 e3]; spec_float_order.
Qed.

#[export] Instance ieee_laws : PyFloatLaws ieee.
Proof.
  split; simpl.
  - intros x. rewrite FloatAxioms.ltb_spec. apply SFltb_irrefl.
  - intros x y z. rewrite !FloatAxioms.ltb_spec. apply SFltb_trans.
  - intros x y z. unfold PrimFloat.is_nan.
    rewrite !FloatAxioms.ltb_spec, FloatAxioms.eqb_spec. intros Hz.
    apply SFltb_cotrans.
    match goal with |- ?b = true => now destruct b end.
Qed.

#[export] Instance literal_re_laws : PyReLaws literal_re.
Proof.
  split; simpl; unfold literal_search.
  - intros text. simpl. now destruct (lower text).
  - intros pattern text Hp _. now rewrite Hp.
Qed.

(** ** Stable sorting *)

Section SortingFacts.
Context {K A : Type} (lt : K -> K -> bool) (number : K -> Prop).
Hypothesis lt_irrefl : forall x, lt x x = false.
Hypothesis lt_trans : forall x y z,
  lt x y = true -> lt y z = true -> lt x z = true.
Hypothesis lt_cotrans : forall x y z,
  number z -> lt x y = true -> lt x z = true \/ lt z y = true.

Lemma lt_asym x y : lt x y = true -> lt y x = false.
Proof using lt_irrefl lt_trans.
  intros Hxy. destruct (lt y x) eqn:Hyx; [|reflexivity].
  rewrite <- (lt_irrefl x). symmetry. eauto.
Qed.

Lemma insert_by_perm (x : K * A) (l : list (K * A)) :
  Permutation (insert_by lt x l) (x :: l).
Proof using Type.
  induction l as [|y l IH]; simpl; [reflexivity|].
  destruct (lt (fst x) (fst y)); [reflexivity|].
  rewrite IH. apply perm_swap.
Qed.

Lemma insert_by_ascending (x : K * A) (l : list (K * A)) :
  ascending lt l -> ascending lt (insert_by lt x l).
Proof using lt_irrefl lt_trans.
  unfold ascending. induction 1 as [|y l Hl IH Hy]; simpl.
  - repeat constructor.
  - destruct (lt (fst x) (fst y)) eqn:Hxy.
    + constructor; [constructor; assumption|].
      constructor; [now apply lt_asym|].
      rewrite Forall_forall in Hy |- *. intros b Hb.
      destruct (lt (fst b) (fst x)) eqn:Hbx; [|reflexivity].
      rewrite <- (Hy b Hb). symmetry. eauto.
    + constructor; [assumption|].
      rewrite (insert_by_perm x l). constructor; assumption.
Qed.

Lemma insert_by_tied c (x : K * A) (l : list (K * A)) :
  number c -> Forall (fun b => number (fst b)) l -> ascending lt l ->
  List.filter (fun b => tied lt c (fst b)) (insert_by lt x l)
  = List.filter (fun b => tied lt c (fst b)) l
    ++ (if tied lt c (fst x) then [x] else []).
Proof using lt_irrefl lt_trans lt_cotrans.
  intros Hc Hnum Hasc. unfold ascending in Hasc.
  induction Hasc as [|y l Hl IH Hy]; simpl.
  - destruct (tied lt c (fst x)); reflexivity.
  - apply Forall_cons_1 in Hnum as [Hny Hnum].
    destruct (lt (fst x) (fst y)) eqn:Hxy; simpl.
    + destruct (tied lt c (fst x)) eqn:Hcx; [|now rewrite app_nil_r].
      (* x is tied with c and below y: nothing from y on is tied with c *)
      assert (Hcy : lt c (fst y) = true).
      { destruct (lt_cotrans _ _ c Hc Hxy) as [H|H]; [|exact H].
        unfold tied in Hcx. rewrite H in Hcx.
        now rewrite andb_false_r in Hcx. }
      assert (Hnone : forall b : K * A, lt (fst b) (fst y) = false ->
                number (fst b) -> tied lt c (fst b) = false).
      { intros b Hby Hnb. unfold tied.
        destruct (lt_cotrans _ _ (fst b) Hnb Hcy) as [H|H].
        - now rewrite H.
        - congruence. }
      rewrite (Hnone y (lt_irrefl _) Hny).
      replace (List.filter (fun b => tied lt c (fst b)) l) with (@nil (K * A)).
      { reflexivity. }
      symmetry. clear IH Hl. induction l as [|b l IHl]; [reflexivity|].
      apply Forall_cons_1 in Hy as [Hb Hy].
      apply Forall_cons_1 in Hnum as [Hnb Hnum].
      simpl. rewrite (Hnone b Hb Hnb). auto.
    + rewrite (IH Hnum). destruct (tied lt c (fst y)); reflexivity.
Qed.

Lemma insert_by_number (x : K * A) (l : list (K * A)) :
  number (fst x) -> Forall (fun b => number (fst b)) l ->
  Forall (fun b => number (fst b)) (insert_by lt x l).
Proof using Type.
  intros Hx Hl. rewrite (insert_by_perm x l). now constructor.
Qed.

Lemma fold_insert_perm (l acc : list (K * A)) :
  Permutation (fold_left (fun acc x => insert_by lt x acc) l acc)
    (acc ++ l).
Proof using Type.
  revert acc. induction l as [|x l IH]; intros acc; simpl.
  - now rewrite app_nil_r.
  - rewrite IH, insert_by_perm. apply Permutation_middle.
Qed.

Lemma fold_insert_ascending (l acc : list (K * A)) :
  ascending lt acc ->
  ascending lt (fold_left (fun acc x => insert_by lt x acc) l acc).
Proof using lt_irrefl lt_trans.
  revert acc. induction l as [|x l IH]; intros acc Hacc; simpl;
    auto using insert_by_ascending.
Qed.

Lemma fold_insert_tied c (l acc : list (K * A)) :
  number c -> Forall (fun b => number (fst b)) acc ->
  Forall (fun b => number (fst b)) l -> ascending lt acc ->
  List.filter (fun b => tied lt c (fst b))
    (fold_left (fun acc x => insert_by lt x acc) l acc)
  = List.filter (fun b => tied lt c (fst b)) (acc ++ l).
Proof using lt_irrefl lt_trans lt_cotrans.
  intros Hc. revert acc.
  induction l as [|x l IH]; intros acc Hacc Hl Hasc; simpl.
  - now rewrite app_nil_r.
  - apply Forall_cons_1 in Hl as [Hx Hl].
    rewrite IH; auto using insert_by_number, insert_by_ascending.
    rewrite !List.filter_app, insert_by_tied by assumption.
    simpl. rewrite <- app_assoc. f_equal.
    destruct (tied lt c (fst x)); reflexivity.
Qed.

(** The three properties of [sorted(..., reverse=True)] on the decorated
    items: same items, no item below a later one, tied items in the
    order of the input. *)
Lemma sort_keyed_rev_perm (l : list (K * A)) :
  Permutation (sort_keyed lt true l) l.
Proof using Type.
  unfold sort_keyed, sort_by.
  rewrite <- Permutation_rev, fold_insert_perm. simpl.
  symmetry. apply Permutation_rev.
Qed.

Lemma sort_keyed_rev_descending (l : list (K * A)) :
  StronglySorted (fun a b => lt (fst a) (fst b) = false)
    (sort_keyed lt true l).
Proof using lt_irrefl lt_trans.
  unfold sort_keyed, sort_by.
  assert (H : ascending lt (fold_left (fun acc x => insert_by lt x acc)
                           (rev l) [])).
  { apply fold_insert_ascending. constructor. }
  revert H. generalize (fold_left (fun acc x => insert_by lt x acc)
                          (rev l) []).
  unfold ascending. intros r Hr.
  induction Hr as [|a r Hr IH Ha]; simpl; [constructor|].
  apply StronglySorted_app_2; [|assumption|repeat constructor].
  intros x1 x2 Hx1 Hx2. apply list_elem_of_In, in_rev in Hx1.
  apply list_elem_of_singleton in Hx2. subst x2.
  rewrite List.Forall_forall in Ha. auto.
Qed.

Lemma sort_keyed_rev_tied c (l : list (K * A)) :
  number c -> Forall (fun b => number (fst b)) l ->
  List.filter (fun b => tied lt c (fst b)) (sort_keyed lt true l)
  = List.filter (fun b => tied lt c (fst b)) l.
Proof using lt_irrefl lt_trans lt_cotrans.
  intros Hc Hl. unfold sort_keyed, sort_by.
  rewrite List.filter_rev, fold_insert_tied; auto.
  - simpl. now rewrite List.filter_rev, rev_involutive.
  - apply List.Forall_forall. intros b Hb. apply in_rev in Hb.
    rewrite List.Forall_forall in Hl. auto.
  - constructor.
Qed.
End SortingFacts.

(** ** The ranking of a list by a key *)

Section Ranking.
Context {K A : Type} (lt : K -> K -> bool).

Lemma combine_decorate (key : A -> K) (l : list A) :
  combine (map key l) l = map (decorate key) l.
Proof. induction l as [|x l IH]; simpl; [reflexivity|now rewrite IH]. Qed.

Lemma decorated_items (key : A -> K) (r : list (K * A)) :
  Forall (fun b => fst b = key (snd b)) r ->
  r = map (decorate key) (map snd r).
Proof.
  induction 1 as [|[k x] r Hx _ IH]; simpl in *; [reflexivity|].
  unfold decorate at 1. now rewrite <- Hx, <- IH.
Qed.

Lemma filter_decorate (key : A -> K) f (r : list A) :
  map snd (List.filter (fun b => f (fst b)) (map (decorate key) r))
  = List.filter (fun x => f (key x)) r.
Proof.
  induction r as [|x r IH]; simpl; [reflexivity|].
  destruct (f (key x)); simpl; now rewrite IH.
Qed.

Lemma StronglySorted_decorate (key : A -> K) (P : K -> K -> Prop) (r : list A) :
  StronglySorted (fun a b => P (fst a) (fst b)) (map (decorate key) r) ->
  StronglySorted (fun a b => P (key a) (key b)) r.
Proof.
  induction r as [|x r IH]; simpl; [constructor|].
  intros H. apply StronglySorted_inv in H as [Hr Hx].
  constructor; [auto|].
  apply List.Forall_forall. intros b Hb.
  rewrite List.Forall_forall in Hx.
  apply (Hx (decorate key b)), in_map, Hb.
Qed.

Section Laws.
Context (number : K -> Prop).
Hypothesis lt_irrefl : forall x, lt x x = false.
Hypothesis lt_trans : forall x y z,
  lt x y = true -> lt y z = true -> lt x z = true.
Hypothesis lt_cotrans : forall x y z,
  number z -> lt x y = true -> lt x z = true \/ lt z y = true.

Lemma sorted_rev_items (key : A -> K) (l : list A) :
  sort_keyed lt true (map (decorate key) l)
  = map (decorate key) (sorted_rev lt key l).
Proof using Type.
  unfold sorted_rev. rewrite combine_decorate.
  apply decorated_items.
  apply List.Forall_forall. intros b Hb.
  apply (Permutation_in _ (sort_keyed_rev_perm lt _)) in Hb.
  apply in_map_iff in Hb as [x [<- _]]. reflexivity.
Qed.

Lemma sorted_rev_perm (key : A -> K) (l : list A) :
  Permutation (sorted_rev lt key l) l.
Proof using Type.
  unfold sorted_rev. rewrite combine_decorate.
  rewrite (sort_keyed_rev_perm lt), map_map. simpl.
  now rewrite map_id.
Qed.

Lemma sorted_rev_desc (key : A -> K) (l : list A) :
  StronglySorted (fun a b => lt (key a) (key b) = false) (sorted_rev lt key l).
Proof using lt_irrefl lt_trans.
  apply (StronglySorted_decorate key (fun a b => lt a b = false)).
  rewrite <- sorted_rev_items.
  now apply sort_keyed_rev_descending.
Qed.

Lemma sorted_rev_spec (key : A -> K) (l : list A) :
  Forall (fun a => number (key a)) l ->
  sorted_descending lt key l (sorted_rev lt key l).
Proof using lt_irrefl lt_trans lt_cotrans.
  intros Hnum. split.
  - apply sorted_rev_perm.
  - apply sorted_rev_desc.
  - intros a Ha.
    rewrite <- !(filter_decorate key (tied lt (key a))).
    rewrite <- sorted_rev_items.
    rewrite (sort_keyed_rev_tied lt number); auto.
    + rewrite List.Forall_forall in Hnum. auto.
    + apply List.Forall_forall. intros b Hb.
      apply in_map_iff in Hb as [x [<- Hx]].
      rewrite List.Forall_forall in Hnum. simpl. auto.
Qed.

(** The three properties determine the list: two rankings of the same
    items that are both descending and keep tied items in the same order
    are equal.  So the result does not depend on which stable sort
    [sorted] runs. *)
Lemma stable_descending_unique (key : A -> K) (r1 r2 : list A) :
  Permutation r1 r2 ->
  StronglySorted (fun a b => lt (key a) (key b) = false) r1 ->
  StronglySorted (fun a b => lt (key a) (key b) = false) r2 ->
  (forall a, In a r1 ->
     List.filter (fun b => tied lt (key a) (key b)) r1
     = List.filter (fun b => tied lt (key a) (key b)) r2) ->
  r1 = r2.
Proof using lt_irrefl.
  revert r2. induction r1 as [|a r1 IH]; intros r2 Hperm Hs1 Hs2 Hst.
  - symmetry. now apply Permutation_nil.
  - destruct r2 as [|b r2]; [now apply Permutation_nil_r in Hperm|].
    apply StronglySorted_inv in Hs1 as [Hs1 Ha].
    apply StronglySorted_inv in Hs2 as [Hs2 Hb].
    rewrite List.Forall_forall in Ha, Hb.
    assert (Haa : tied lt (key a) (key a) = true).
    { unfold tied. now rewrite lt_irrefl. }
    assert (Hab : a = b).
    { pose proof (Hst a (or_introl eq_refl)) as Hf. simpl in Hf.
      rewrite Haa in Hf.
      destruct (tied lt (key a) (key b)) eqn:Htied; [now inversion Hf|].
      unfold tied in Htied. exfalso.
      assert (Hin_b : In b (a :: r1))
        by (apply (Permutation_in _ (Permutation_sym Hperm)); now left).
      assert (Hin_a : In a (b :: r2))
        by (apply (Permutation_in _ Hperm); now left).
      destruct Hin_b as [->|Hin_b]; [now rewrite lt_irrefl in Htied|].
      destruct Hin_a as [->|Hin_a]; [now rewrite lt_irrefl in Htied|].
      rewrite (Ha b Hin_b), (Hb a Hin_a) in Htied. discriminate. }
    subst b. f_equal. apply IH; auto.
    + now apply Permutation_cons_inv in Hperm.
    + intros c Hc. pose proof (Hst c (or_intror Hc)) as Hf. simpl in Hf.
      destruct (tied lt (key c) (key a)); [now inversion Hf|exact Hf].
Qed.

Lemma sorted_descending_functional (key : A -> K) (l r1 r2 : list A) :
  sorted_descending lt key l r1 -> sorted_descending lt key l r2 -> r1 = r2.
Proof using lt_irrefl.
  intros [Hp1 Hd1 Hst1] [Hp2 Hd2 Hst2].
  apply (stable_descending_unique key); auto.
  - now rewrite Hp1, Hp2.
  - intros a Ha. apply (Permutation_in _ Hp1) in Ha.
    now rewrite Hst1, Hst2.
Qed.

(** With keys that are pairwise different the ranking does not depend
    on the order of the input. *)
Lemma descending_unique `{EqDecision A} (key : A -> K) (l r1 r2 : list A) :
  (forall a b, In a l -> In b l -> a <> b ->
     lt (key a) (key b) = true \/ lt (key b) (key a) = true) ->
  Permutation r1 l -> Permutation r2 l ->
  StronglySorted (fun a b => lt (key a) (key b) = false) r1 ->
  StronglySorted (fun a b => lt (key a) (key b) = false) r2 ->
  r1 = r2.
Proof using Type.
  intros Hdistinct Hp1 Hp2 Hd1 Hd2.
  apply (StronglySorted_unique_strong
           (fun a b => lt (key a) (key b) = false));
    [|assumption|assumption|].
  - intros a b Ha Hb Hab Hba.
    destruct (decide (a = b)) as [|Hne]; [assumption|].
    apply list_elem_of_In, (Permutation_in _ Hp1) in Ha.
    apply list_elem_of_In, (Permutation_in _ Hp2) in Hb.
    destruct (Hdistinct a b Ha Hb Hne); congruence.
  - now rewrite Hp1, Hp2.
Qed.

Lemma sorted_rev_reverse `{EqDecision A} (key : A -> K) (l : list A) :
  (forall a b, In a l -> In b l -> a <> b ->
     lt (key a) (key b) = true \/ lt (key b) (key a) = true) ->
  sorted_rev lt key (rev l) = sorted_rev lt key l.
Proof using lt_irrefl lt_trans.
  intros Hdistinct.
  apply (descending_unique key l); auto using sorted_rev_perm, sorted_rev_desc.
  rewrite sorted_rev_perm. symmetry. apply Permutation_rev.
Qed.
End Laws.
End Ranking.

(** ** Running the operations of the store *)

Lemma map_result_ok {A B} (g : A -> result B) (h : A -> B) xs :
  (forall x, In x xs -> g x = Ok (h x)) -> map_result g xs = Ok (map h xs).
Proof.
  induction xs as [|x xs IH]; simpl; intros H; [reflexivity|].
  rewrite (H x) by auto. rewrite IH by auto. reflexivity.
Qed.

Lemma map_result_raise {A B} (g : A -> result B) e xs :
  (forall x, In x xs -> g x = Raise e \/ exists y, g x = Ok y) ->
  (exists x, In x xs /\ g x = Raise e) ->
  map_result g xs = Raise e.
Proof.
  induction xs as [|x xs IH]; simpl; intros Hall [x0 [Hin Hx0]]; [easy|].
  destruct (Hall x) as [Hx|[y Hx]]; [auto| |]; rewrite Hx; [reflexivity|].
  rewrite IH; auto.
  destruct Hin as [->|Hin]; [congruence|eauto].
Qed.

Lemma map_result_ext {A B} (g g' : A -> result B) xs :
  (forall x, g x = g' x) -> map_result g xs = map_result g' xs.
Proof.
  intros H. induction xs as [|x xs IH]; simpl; [reflexivity|].
  now rewrite H, IH.
Qed.


Lemma dict_at_snoc_list h xs p : dict_at (h ++ [OList xs]) p = dict_at h p.
Proof.
  unfold dict_at. destruct (decide (p < length h)) as [Hlt|Hge].
  - now rewrite lookup_app_l.
  - rewrite lookup_app_r by lia. rewrite (lookup_ge_None_2 h p) by lia.
    destruct (p - length h) as [|n]; reflexivity.
Qed.

Lemma insert_snoc (h : list obj) o o' :
  <[length h := o']> (h ++ [o]) = h ++ [o'].
Proof. rewrite insert_app_r_alt by lia. now rewrite Nat.sub_diag. Qed.

Lemma lookup_snoc (h : list obj) o : (h ++ [o]) !! length h = Some o.
Proof. rewrite lookup_app_r by lia. now rewrite Nat.sub_diag. Qed.

Lemma bind_run {A B} (m : M A) (k : A -> M B) s :
  bind m k s
  = match m s with
    | (s', Ok a) => k a s'
    | (s', Raise e) => (s', Raise e)
    end.
Proof. reflexivity. Qed.

Lemma list_items_run s l xs : is_list s l xs -> list_items l s = (s, Ok xs).
Proof.
  intros H. unfold list_items, load. rewrite bind_run.
  unfold is_list in H. now rewrite H.
Qed.

Lemma list_items_not_list s l :
  (forall xs, ~ is_list s l xs) -> list_items l s = (s, Raise TypeError).
Proof.
  intros H. unfold list_items, load. rewrite bind_run. unfold is_list in H.
  destruct (heap s !! l) as [[d|xs]|]; try reflexivity.
  now destruct (H xs).
Qed.

Lemma list_append_run s l xs x :
  is_list s l xs ->
  list_append l x s
  = (mkState (<[l := OList (xs ++ [x])]> (heap s)) (stdout s), Ok tt).
Proof.
  intros H. unfold list_append. rewrite bind_run, (list_items_run _ _ _ H).
  reflexivity.
Qed.

Lemma map_m_run {A B} (f : A -> M B) (g : A -> result B) xs s :
  (forall x, f x s = (s, g x)) -> map_m f xs s = (s, map_result g xs).
Proof.
  intros H. induction xs as [|x xs IH]; simpl; [reflexivity|].
  rewrite bind_run, H. destruct (g x) as [y|e]; [|reflexivity].
  rewrite bind_run, IH. now destruct (map_result g xs).
Qed.

Lemma dict_getitem_run p key s :
  dict_getitem p key s = (s, getitem_result (heap s) p key).
Proof.
  unfold dict_getitem, load, getitem_result, dict_at. rewrite bind_run.
  destruct (heap s !! p) as [[d|xs]|]; try reflexivity.
  now destruct (dict_lookup d key).
Qed.

(** ** Running the key functions and [sorted] *)

Section KeyFacts.
Context {F : PyFloat}.

Lemma to_float_run v s : to_float v s = (s, float_result v).
Proof. unfold to_float, float_result. now destruct (py_float v). Qed.

Lemma field_run p key s :
  (v <- dict_getitem p key ;; to_float v) s
  = (s, field_result (heap s) p key).
Proof.
  rewrite bind_run, dict_getitem_run. unfold field_result.
  destruct (getitem_result (heap s) p key); [apply to_float_run|reflexivity].
Qed.

Lemma key_points_run p s : key_points p s = (s, points_result (heap s) p).
Proof. apply field_run. Qed.

Lemma key_overall_run p s :
  key_overall p s = (s, overall_result (heap s) p).
Proof.
  unfold key_overall, overall_result, dict_keys_of, load, dict_at.
  rewrite bind_run, bind_run.
  destruct (heap s !! p) as [[d|xs]|]; try reflexivity.
  unfold ret at 1. rewrite bind_run.
  rewrite (map_m_run _ (field_result (heap s) p)) by (intros; apply field_run).
  now destruct (map_result _ _).
Qed.

Lemma field_result_snoc h xs p key :
  field_result (h ++ [OList xs]) p key = field_result h p key.
Proof.
  unfold field_result, getitem_result. now rewrite dict_at_snoc_list.
Qed.

Lemma points_result_snoc h xs p :
  points_result (h ++ [OList xs]) p = points_result h p.
Proof. apply field_result_snoc. Qed.

Lemma overall_result_snoc h xs p :
  overall_result (h ++ [OList xs]) p = overall_result h p.
Proof.
  unfold overall_result. rewrite dict_at_snoc_list.
  destruct (dict_at h p); [|reflexivity].
  now rewrite (map_result_ext _ (field_result h p))
    by (intros; apply field_result_snoc).
Qed.

Lemma py_sorted_run key (g : list obj -> loc -> result pyfloat) s l xs :
  (forall x s, key x s = (s, g (heap s) x)) ->
  (forall h ys x, g (h ++ [OList ys]) x = g h x) ->
  is_list s l xs ->
  py_sorted l key true s
  = match map_result (g (heap s)) xs with
    | Ok ks =>
        (mkState (heap s ++ [OList (ranking ks xs)]) (stdout s),
         Ok (length (heap s)))
    | Raise e => (mkState (heap s ++ [OList xs]) (stdout s), Raise e)
    end.
Proof.
  intros Hkey Hext Hl. unfold py_sorted.
  rewrite bind_run, (list_items_run _ _ _ Hl).
  rewrite bind_run. unfold alloc at 1.
  rewrite bind_run.
  rewrite (map_m_run _ (g (heap s ++ [OList xs]))) by (intros; apply Hkey).
  rewrite (map_result_ext _ (g (heap s))) by (intros; apply Hext).
  destruct (map_result (g (heap s)) xs) as [ks|e]; [|reflexivity].
  rewrite bind_run. unfold store, ret. simpl.
  now rewrite insert_snoc.
Qed.

Lemma py_sorted_not_list key reverse s l :
  (forall xs, ~ is_list s l xs) ->
  py_sorted l key reverse s = (s, Raise TypeError).
Proof.
  intros H. unfold py_sorted.
  now rewrite bind_run, (list_items_not_list _ _ H).
Qed.

(** [calculate_mvp] on a list object, case by case. *)
Lemma calculate_mvp_run s l ps top_count :
  is_list s l ps ->
  calculate_mvp l top_count s
  = match map_result (points_result (heap s)) ps with
    | Raise e => (mkState (heap s ++ [OList ps]) (stdout s), Raise e)
    | Ok kps =>
        let by_points := ranking kps ps in
        let top := slice_to by_points top_count in
        match map_result (overall_result (heap s)) ps with
        | Raise e =>
            (mkState (heap s ++ [OList by_points; OList top; OList ps])
               (stdout s), Raise e)
        | Ok kos =>
            let by_overall := ranking kos ps in
            let s' := mkState (heap s ++ [OList by_points; OList top;
                                          OList by_overall]) (stdout s) in
            match by_overall with
            | best :: second :: third :: _ =>
                (s', Ok (S (length (heap s)), best, second, third))
            | _ => (s', Raise IndexError)
            end
        end
    end.
Proof.
  intros Hl. unfold calculate_mvp.
  rewrite bind_run.
  rewrite (py_sorted_run key_points points_result _ _ _
             key_points_run points_result_snoc Hl).
  destruct (map_result (points_result (heap s)) ps) as [kps|e];
    [|reflexivity].
  set (by_points := ranking kps ps).
  set (s1 := mkState (heap s ++ [OList by_points]) (stdout s)).
  assert (H1 : is_list s1 (length (heap s)) by_points)
    by apply lookup_snoc.
  rewrite bind_run. unfold list_slice_to.
  rewrite bind_run, (list_items_run _ _ _ H1). unfold alloc at 1.
  set (top := slice_to by_points top_count).
  set (s2 := mkState (heap s1 ++ [OList top]) (stdout s1)).
  assert (H2 : is_list s2 l ps).
  { unfold is_list, s2, s1. simpl.
    rewrite !lookup_app_l; [exact Hl| |];
      rewrite ?length_app; apply lookup_lt_Some in Hl; simpl; lia. }
  rewrite bind_run.
  rewrite (py_sorted_run key_overall overall_result _ _ _
             key_overall_run overall_result_snoc H2).
  assert (Hks : map_result (overall_result (heap s2)) ps
                = map_result (overall_result (heap s)) ps).
  { apply map_result_ext. intros x. unfold s2, s1. simpl.
    now rewrite !overall_result_snoc. }
  rewrite Hks.
  assert (Hheap : forall o, heap s2 ++ [o]
                    = heap s ++ [OList by_points; OList top; o]).
  { intros o. unfold s2, s1. simpl. now rewrite <- !app_assoc. }
  destruct (map_result (overall_result (heap s)) ps) as [kos|e].
  2:{ now rewrite Hheap. }
  set (by_overall := ranking kos ps).
  set (s3 := mkState (heap s2 ++ [OList by_overall]) (stdout s2)).
  assert (H3 : is_list s3 (length (heap s2)) by_overall)
    by apply lookup_snoc.
  assert (Hlen : length (heap s1) = S (length (heap s))).
  { unfold s1. simpl. rewrite length_app. simpl. lia. }
  assert (Hget : forall i,
            list_getitem (length (heap s2)) i s3
            = (s3, seq_getitem by_overall i)).
  { intros i. unfold list_getitem.
    now rewrite bind_run, (list_items_run _ _ _ H3). }
  assert (Hs3 : s3 = mkState (heap s ++ [OList by_points; OList top;
                                         OList by_overall]) (stdout s)).
  { unfold s3. now rewrite Hheap. }
  rewrite <- Hs3, <- Hlen. clearbody s3. clear Hs3.
  destruct by_overall as [|best [|second [|third rest]]];
    repeat (rewrite bind_run, Hget; unfold seq_getitem; simpl);
    reflexivity.
Qed.

Lemma calculate_mvp_not_list s l top_count :
  (forall xs, ~ is_list s l xs) ->
  calculate_mvp l top_count s = (s, Raise TypeError).
Proof.
  intros H. unfold calculate_mvp.
  now rewrite bind_run, (py_sorted_not_list _ _ _ _ H).
Qed.
End KeyFacts.

(** ** Player dicts *)

Section PlayerFacts.
Context {F : PyFloat}.

Lemma dict_at_player s p pl :
  is_player s p pl -> dict_at (heap s) p = Some (dict_of_player pl).
Proof. unfold is_player, is_dict, dict_at. now intros ->. Qed.

Lemma points_result_player s p pl :
  is_player s p pl ->
  points_result (heap s) p = option_result (points_value pl).
Proof.
  intros H. unfold points_result, field_result, getitem_result.
  rewrite (dict_at_player _ _ _ H). reflexivity.
Qed.

(** On a player dict the sum over every key but ['Player'] is the sum of
    the five numeric fields, in the order of the dict. *)
Lemma overall_result_player s p pl :
  is_player s p pl ->
  overall_result (heap s) p = option_result (overall_score pl).
Proof.
  intros H. unfold overall_result, field_result, getitem_result.
  rewrite (dict_at_player _ _ _ H). simpl.
  unfold overall_score, float_result.
  destruct (py_float (points pl)); [|reflexivity].
  destruct (py_float (field_goal_pct pl)); [|reflexivity].
  destruct (py_float (three_point_pct pl)); [|reflexivity].
  destruct (py_float (rebounds pl)); [|reflexivity].
  destruct (py_float (assists pl)); reflexivity.
Qed.

Lemma overall_score_points pl :
  is_Some (overall_score pl) -> is_Some (points_value pl).
Proof.
  unfold overall_score, points_value.
  destruct (py_float (points pl)); [eauto|]. intros [x Hx]. discriminate.
Qed.

Lemma ranking_length ks (xs : list loc) :
  length ks = length xs -> length (ranking ks xs) = length xs.
Proof.
  intros H. unfold ranking. rewrite length_map.
  rewrite (Permutation_length (sort_keyed_rev_perm py_lt _)).
  rewrite length_combine. lia.
Qed.

Lemma map_result_players (g : loc -> result pyfloat)
    (value : Player -> option pyfloat) s ps :
  (forall p pl, is_player s p pl -> g p = option_result (value pl)) ->
  (forall p, In p ps -> exists pl, is_player s p pl /\ is_Some (value pl)) ->
  exists ks, map_result g ps = Ok ks /\ length ks = length ps.
Proof.
  intros Hg. induction ps as [|p ps IH]; simpl; intros H.
  - now exists [].
  - destruct (H p) as [pl [Hpl [x Hx]]]; [auto|].
    rewrite (Hg p pl Hpl), Hx. simpl.
    destruct IH as [ks [-> Hlen]]; [auto|].
    exists (x :: ks). simpl. auto.
Qed.
End PlayerFacts.

(** ** Running [filter_players] *)

Lemma getitem_result_snoc h xs p key :
  getitem_result (h ++ [OList xs]) p key = getitem_result h p key.
Proof. unfold getitem_result. now rewrite dict_at_snoc_list. Qed.

Section FilterFacts.
Context {R : PyRe}.

Lemma filter_players_body_run pattern h0 out acc p :
  filter_players_body pattern (length h0) p (mkState (h0 ++ [OList acc]) out)
  = match search_result h0 pattern p with
    | Ok true => (mkState (h0 ++ [OList (acc ++ [p])]) out, Ok tt)
    | Ok false => (mkState (h0 ++ [OList acc]) out, Ok tt)
    | Raise e => (mkState (h0 ++ [OList acc]) out, Raise e)
    end.
Proof.
  unfold filter_players_body, search_result.
  rewrite bind_run, dict_getitem_run. simpl.
  rewrite getitem_result_snoc.
  destruct (getitem_result h0 p "Player") as [player_name|e]; [|reflexivity].
  rewrite bind_run. unfold lift.
  destruct (re_search_ignorecase pattern player_name) as [[|]|e];
    try reflexivity.
  rewrite (list_append_run _ _ acc) by apply lookup_snoc.
  simpl. now rewrite insert_snoc.
Qed.

Lemma filter_players_loop pattern (found : loc -> bool) h0 out xs acc :
  (forall p, In p xs -> search_result h0 pattern p = Ok (found p)) ->
  for_each xs (filter_players_body pattern (length h0))
    (mkState (h0 ++ [OList acc]) out)
  = (mkState (h0 ++ [OList (acc ++ List.filter found xs)]) out, Ok tt).
Proof.
  revert acc. induction xs as [|p xs IH]; intros acc H; simpl.
  - now rewrite app_nil_r.
  - rewrite bind_run, filter_players_body_run, (H p) by now left.
    destruct (found p);
      rewrite IH by (intros q Hq; apply H; now right); [|reflexivity].
    now rewrite <- app_assoc.
Qed.

Lemma filter_players_loop_frame pattern h0 out xs acc :
  exists ys r,
    for_each xs (filter_players_body pattern (length h0))
      (mkState (h0 ++ [OList acc]) out)
    = (mkState (h0 ++ [OList (acc ++ ys)]) out, r)
    /\ sublist ys xs.
Proof.
  revert acc. induction xs as [|p xs IH]; intros acc; simpl.
  - exists [], (Ok tt). rewrite app_nil_r. split; [reflexivity|constructor].
  - rewrite bind_run, filter_players_body_run.
    destruct (search_result h0 pattern p) as [[|]|e].
    + destruct (IH (acc ++ [p])) as [ys [r [-> Hsub]]].
      exists (p :: ys), r. rewrite <- app_assoc.
      split; [reflexivity|now constructor].
    + destruct (IH acc) as [ys [r [-> Hsub]]].
      exists ys, r. split; [reflexivity|now constructor].
    + exists [], (Raise e). rewrite app_nil_r.
      split; [reflexivity|apply sublist_nil_l].
Qed.

Lemma filter_players_run pattern (found : loc -> bool) s l ps :
  is_list s l ps ->
  (forall p, In p ps -> search_result (heap s) pattern p = Ok (found p)) ->
  filter_players l pattern s
  = (mkState (heap s ++ [OList (List.filter found ps)]) (stdout s),
     Ok (length (heap s))).
Proof.
  intros Hl Hfound. unfold filter_players.
  rewrite bind_run. unfold alloc at 1.
  rewrite bind_run, (list_items_run _ _ ps).
  2:{ unfold is_list. simpl. rewrite lookup_app_l; [exact Hl|].
      now apply lookup_lt_Some in Hl. }
  rewrite bind_run, (filter_players_loop pattern found) by assumption.
  reflexivity.
Qed.

(** Whatever the arguments, [filter_players] adds one list object to the
    store and changes nothing else; the new list is a subsequence of the
    list it was given. *)
Lemma filter_players_frame pattern s l :
  exists qs r,
    filter_players l pattern s
    = (mkState (heap s ++ [OList qs]) (stdout s), r)
    /\ (forall filtered, r = Ok filtered -> filtered = length (heap s))
    /\ (forall ps, is_list s l ps -> sublist qs ps).
Proof.
  unfold filter_players. rewrite bind_run. unfold alloc at 1.
  rewrite bind_run.
  set (s1 := mkState (heap s ++ [OList []]) (stdout s)).
  assert (Hold : forall ps xs,
            is_list s l ps -> heap s1 !! l = Some xs -> xs = OList ps).
  { intros ps xs Hps Hxs. unfold is_list in Hps.
    unfold s1 in Hxs. simpl in Hxs.
    rewrite lookup_app_l in Hxs by now apply lookup_lt_Some in Hps.
    congruence. }
  destruct (heap s1 !! l) as [[d|xs]|] eqn:Hs1.
  - exists [], (Raise TypeError). repeat split.
    + rewrite list_items_not_list; [reflexivity|].
      unfold is_list. intros xs. now rewrite Hs1.
    + discriminate.
    + intros ps Hps. discriminate (Hold ps _ Hps eq_refl).
  - rewrite (list_items_run s1 l xs Hs1), bind_run.
    destruct (filter_players_loop_frame pattern (heap s) (stdout s) xs [])
      as [ys [r [Hrun Hsub]]].
    unfold s1. rewrite Hrun. simpl.
    exists ys. destruct r as [[]|e]; eexists; (split; [reflexivity|]).
    + split; [intros f Hf; now inversion Hf|].
      intros ps Hps. pose proof (Hold ps _ Hps eq_refl). congruence.
    + split; [discriminate|].
      intros ps Hps. pose proof (Hold ps _ Hps eq_refl). congruence.
  - exists [], (Raise TypeError). repeat split.
    + rewrite list_items_not_list; [reflexivity|].
      unfold is_list. intros xs. now rewrite Hs1.
    + discriminate.
    + intros ps Hps. apply lookup_lt_Some in Hps.
      apply lookup_ge_None in Hs1. unfold s1 in Hs1. simpl in Hs1.
      rewrite length_app in Hs1. lia.
Qed.
End FilterFacts.

(** ** Running [get_player_stats] *)

Lemma column_text_run (columns : list string) i s :
  i < length columns ->
  column_text columns i s = (s, Ok (strip (nth i columns ""))).
Proof.
  intros Hi. unfold column_text, lift, seq_getitem. rewrite bind_run.
  destruct (columns !! i) as [c|] eqn:Hc.
  - unfold ret. do 3 f_equal. symmetry.
    apply nth_lookup_Some with (d := "") in Hc. exact Hc.
  - apply lookup_ge_None in Hc. lia.
Qed.

Lemma column_text_short (columns : list string) i s :
  length columns <= i ->
  column_text columns i s = (s, Raise IndexError).
Proof.
  intros Hi. unfold column_text, lift, seq_getitem. rewrite bind_run.
  now rewrite lookup_ge_None_2.
Qed.

Lemma get_player_stats_row_keeps h0 pls out row :
  15 <= length (snd row) ->
  get_player_stats_row (length h0) row
    (mkState (h0 ++ OList (seq (S (length h0)) (length pls))
                 :: player_objects pls) out)
  = (mkState (h0 ++ OList (seq (S (length h0))
                             (length (pls ++ [player_of_row row])))
                 :: player_objects (pls ++ [player_of_row row])) out,
     Ok tt).
Proof.
  destruct row as [player_name_column columns]. simpl. intros Hlen.
  destruct (Nat.ltb_spec (length columns) 9) as [|_]; [lia|].
  repeat (rewrite bind_run, column_text_run by lia).
  rewrite bind_run. unfold alloc at 1.
  set (player := ODict _).
  rewrite (list_append_run _ _ (seq (S (length h0)) (length pls))).
  2:{ unfold is_list. simpl. rewrite <- app_assoc. apply list_lookup_middle.
      reflexivity. }
  simpl. f_equal. f_equal.
  rewrite <- app_assoc. rewrite insert_app_r_alt by lia.
  rewrite Nat.sub_diag. simpl. f_equal.
  unfold player_objects. rewrite map_app. subst player. simpl.
  f_equal. f_equal.
  rewrite !length_app. simpl. rewrite length_map, Nat.add_1_r, seq_S.
  do 2 f_equal. lia.
Qed.

Lemma get_player_stats_row_skips l s row :
  length (snd row) < 9 ->
  get_player_stats_row l row s
  = (mkState (heap s) (stdout s ++ ["Invalid row, skipping..."]), Ok tt).
Proof.
  destruct row as [player_name_column columns]. simpl. intros Hlen.
  destruct (Nat.ltb_spec (length columns) 9) as [_|]; [reflexivity|lia].
Qed.

(** A row with 9 to 14 cells passes the length check and one of the reads
    [columns[9]], [columns[13]], [columns[14]] is out of range. *)
Lemma get_player_stats_row_out_of_range l s row :
  9 <= length (snd row) < 15 ->
  get_player_stats_row l row s = (s, Raise IndexError).
Proof.
  destruct row as [player_name_column columns]. simpl. intros Hlen.
  destruct (Nat.ltb_spec (length columns) 9) as [|_]; [lia|].
  repeat (rewrite bind_run, column_text_run by lia).
  destruct (le_lt_dec (length columns) 9).
  { now rewrite bind_run, column_text_short by lia. }
  rewrite bind_run, column_text_run by lia.
  destruct (le_lt_dec (length columns) 13).
  { now rewrite bind_run, column_text_short by lia. }
  rewrite bind_run, column_text_run by lia.
  now rewrite bind_run, column_text_short by lia.
Qed.



(** ** The ranking *)

Section RankingTheorems.
Context {F : PyFloat} {L : PyFloatLaws F}.

Lemma ranking_sorted_rev (key : loc -> pyfloat) ps :
  ranking (map key ps) ps = sorted_rev py_lt key ps.
Proof using Type. reflexivity. Qed.

Lemma sorted_rev_ranked (key : loc -> pyfloat) ps :
  (forall p, In p ps -> py_isnan (key p) = false) ->
  sorted_descending py_lt key ps (sorted_rev py_lt key ps).
Proof using L.
  intros H.
  apply (sorted_rev_spec py_lt (fun k => py_isnan k = false));
    [apply py_lt_irrefl|apply py_lt_trans|apply py_lt_cotrans|].
  now apply List.Forall_forall.
Qed.

(** C1 (as amended): with fewer than three players, all with numeric
    fields that parse, [calculate_mvp] fails with [IndexError] when it
    indexes the overall ranking; this holds for the empty list too. *)
Theorem calculate_mvp_fewer_than_three s player_stats ps top_count :
  is_list s player_stats ps ->
  (forall p, In p ps ->
     exists pl, is_player s p pl /\ is_Some (overall_score pl)) ->
  length ps < 3 ->
  exists s', calculate_mvp player_stats top_count s = (s', Raise IndexError).
Proof using Type.
  intros Hl Hps Hlen. rewrite (calculate_mvp_run _ _ _ _ Hl).
  destruct (map_result_players (points_result (heap s)) points_value s ps)
    as [kps [-> Hkps]].
  { intros p pl. apply points_result_player. }
  { intros p Hp. destruct (Hps p Hp) as [pl [Hpl Hsome]].
    exists pl. auto using overall_score_points. }
  destruct (map_result_players (overall_result (heap s)) overall_score s ps)
    as [kos [-> Hkos]]; [intros p pl; apply overall_result_player|exact Hps|].
  cbv zeta. pose proof (ranking_length kos ps Hkos) as Hr.
  destruct (ranking kos ps) as [|b [|sd [|th rest]]]; simpl in Hr;
    [eauto..|lia].
Qed.

(** C4: the overall ranking built by [calculate_mvp] holds the players in
    descending order of the sum of their five numeric fields, players with
    tied sums in the order of the input, and best, second and third place
    are its entries 0, 1 and 2. *)
Theorem overall_ranking_sorted s player_stats ps top_count
    (score : loc -> pyfloat) :
  is_list s player_stats ps ->
  (forall p, In p ps ->
     exists pl, is_player s p pl /\ overall_score pl = Some (score p)
                /\ py_isnan (score p) = false) ->
  3 <= length ps ->
  exists s' top_players overall_list overall best second third,
    calculate_mvp player_stats top_count s
      = (s', Ok (top_players, best, second, third))
    /\ is_list s' overall_list overall
    /\ sorted_descending py_lt score ps overall
    /\ overall !! 0 = Some best
    /\ overall !! 1 = Some second
    /\ overall !! 2 = Some third.
Proof using L.
  intros Hl Hps Hlen. rewrite (calculate_mvp_run _ _ _ _ Hl).
  destruct (map_result_players (points_result (heap s)) points_value s ps)
    as [kps [-> Hkps]].
  { intros p pl. apply points_result_player. }
  { intros p Hp. destruct (Hps p Hp) as [pl [Hpl [Hsc _]]].
    exists pl. split; [assumption|]. apply overall_score_points. eauto. }
  rewrite (map_result_ok _ score).
  2:{ intros p Hp. destruct (Hps p Hp) as [pl [Hpl [Hsc _]]].
      now rewrite (overall_result_player _ _ _ Hpl), Hsc. }
  cbv zeta. rewrite ranking_sorted_rev.
  assert (Hspec : sorted_descending py_lt score ps (sorted_rev py_lt score ps)).
  { apply sorted_rev_ranked. intros p Hp.
    destruct (Hps p Hp) as [pl [_ [_ Hnan]]]. exact Hnan. }
  pose proof (Permutation_length (sd_perm _ _ _ _ Hspec)) as Hr.
  destruct (sorted_rev py_lt score ps) as [|b [|sd [|th rest]]] eqn:Hsorted;
    simpl in Hr; try lia.
  eexists _, _, (S (S (length (heap s)))), _, b, sd, th.
  split; [reflexivity|]. split; [|split; [exact Hspec|now repeat split]].
  unfold is_list. simpl.
  rewrite lookup_app_r by lia.
  replace (S (S (length (heap s))) - length (heap s)) with 2 by lia.
  reflexivity.
Qed.

(** C5: the list of top players holds the first [top_count] players of the
    input in descending order of points, players with tied points in the
    order of the input. *)
Theorem top_by_points_sorted s player_stats ps top_count
    (pts : loc -> pyfloat) :
  is_list s player_stats ps ->
  (forall p, In p ps ->
     exists pl, is_player s p pl /\ points_value pl = Some (pts p)
                /\ py_isnan (pts p) = false
                /\ is_Some (overall_score pl)) ->
  3 <= length ps ->
  (0 <= top_count)%Z ->
  exists s' top_players by_points best second third,
    calculate_mvp player_stats top_count s
      = (s', Ok (top_players, best, second, third))
    /\ sorted_descending py_lt pts ps by_points
    /\ is_list s' top_players (take (Z.to_nat top_count) by_points)
    /\ length (take (Z.to_nat top_count) by_points)
       = Nat.min (Z.to_nat top_count) (length ps).
Proof using L.
  intros Hl Hps Hlen Htop. rewrite (calculate_mvp_run _ _ _ _ Hl).
  rewrite (map_result_ok _ pts).
  2:{ intros p Hp. destruct (Hps p Hp) as [pl [Hpl [Hpts _]]].
      now rewrite (points_result_player _ _ _ Hpl), Hpts. }
  destruct (map_result_players (overall_result (heap s)) overall_score s ps)
    as [kos [-> Hkos]]; [intros p pl; apply overall_result_player| |].
  { intros p Hp. destruct (Hps p Hp) as [pl [Hpl [_ [_ Hsc]]]]. eauto. }
  cbv zeta. rewrite ranking_sorted_rev.
  assert (Hspec : sorted_descending py_lt pts ps (sorted_rev py_lt pts ps)).
  { apply sorted_rev_ranked. intros p Hp.
    destruct (Hps p Hp) as [pl [_ [_ [Hnan _]]]]. exact Hnan. }
  pose proof (ranking_length kos ps Hkos) as Hr.
  destruct (ranking kos ps) as [|b [|sd [|th rest]]]; simpl in Hr; try lia.
  eexists _, _, (sorted_rev py_lt pts ps), b, sd, th.
  split; [reflexivity|]. split; [exact Hspec|]. split.
  - unfold is_list, slice_to. simpl.
    destruct (Z.leb_spec 0 top_count) as [_|]; [|lia].
    rewrite lookup_app_r by lia.
    replace (S (length (heap s)) - length (heap s)) with 1 by lia.
    reflexivity.
  - rewrite length_take.
    now rewrite (Permutation_length (sd_perm _ _ _ _ Hspec)).
Qed.
End RankingTheorems.

Lemma map_result_raise_inv {A B} (g : A -> result B) e xs :
  map_result g xs = Raise e -> exists x, In x xs /\ g x = Raise e.
Proof.
  induction xs as [|x xs IH]; simpl; [discriminate|].
  destruct (g x) as [y|e'] eqn:Hx.
  - destruct (map_result g xs) as [ys|e'']; [discriminate|].
    intros H. destruct IH as [x' [Hin Hx']]; [exact H|]. eauto.
  - intros H. inversion H. subst. eauto.
Qed.

Section ReversalTheorem.
Context {F : PyFloat} {L : PyFloatLaws F}.

(** C9: when different players have different points, [calculate_mvp] on
    the reversed list returns the same top players. *)
Theorem top_by_points_reversed s player_stats reversed_stats ps top_count
    (pts : loc -> pyfloat) :
  is_list s player_stats ps ->
  is_list s reversed_stats (rev ps) ->
  (forall p, In p ps ->
     exists pl, is_player s p pl /\ points_value pl = Some (pts p)
                /\ is_Some (overall_score pl)) ->
  (forall a b, In a ps -> In b ps -> a <> b ->
     py_lt (pts a) (pts b) = true \/ py_lt (pts b) (pts a) = true) ->
  3 <= length ps ->
  exists s1 s2 top1 top2 b1 sd1 th1 b2 sd2 th2 top,
    calculate_mvp player_stats top_count s = (s1, Ok (top1, b1, sd1, th1))
    /\ calculate_mvp reversed_stats top_count s
       = (s2, Ok (top2, b2, sd2, th2))
    /\ is_list s1 top1 top /\ is_list s2 top2 top
    /\ (forall p, In p top -> In p ps).
Proof using L.
  intros Hl Hrev Hps Hdistinct Hlen.
  assert (Hps' : forall p, In p (rev ps) ->
            exists pl, is_player s p pl /\ points_value pl = Some (pts p)
                       /\ is_Some (overall_score pl)).
  { intros p Hp. apply Hps. now apply in_rev. }
  assert (Hrun : forall l xs, is_list s l xs ->
            (forall p, In p xs ->
               exists pl, is_player s p pl /\ points_value pl = Some (pts p)
                          /\ is_Some (overall_score pl)) ->
            3 <= length xs ->
            exists s' b sd th,
              calculate_mvp l top_count s
                = (s', Ok (S (length (heap s)), b, sd, th))
              /\ is_list s' (S (length (heap s)))
                   (slice_to (sorted_rev py_lt pts xs) top_count)).
  { intros l xs Hxs Hplayers Hn. rewrite (calculate_mvp_run _ _ _ _ Hxs).
    rewrite (map_result_ok _ pts).
    2:{ intros p Hp. destruct (Hplayers p Hp) as [pl [Hpl [Hpts _]]].
        now rewrite (points_result_player _ _ _ Hpl), Hpts. }
    destruct (map_result_players (overall_result (heap s)) overall_score s xs)
      as [kos [-> Hkos]]; [intros p pl; apply overall_result_player| |].
    { intros p Hp. destruct (Hplayers p Hp) as [pl [Hpl [_ Hsc]]]. eauto. }
    cbv zeta. rewrite ranking_sorted_rev.
    pose proof (ranking_length kos xs Hkos) as Hr.
    destruct (ranking kos xs) as [|b [|sd [|th rest]]]; simpl in Hr; try lia.
    eexists _, b, sd, th. split; [reflexivity|].
    unfold is_list. simpl. rewrite lookup_app_r by lia.
    replace (S (length (heap s)) - length (heap s)) with 1 by lia.
    reflexivity. }
  destruct (Hrun _ _ Hl Hps Hlen) as [s1 [b1 [sd1 [th1 [Hrun1 Htop1]]]]].
  rewrite <- length_rev in Hlen.
  destruct (Hrun _ _ Hrev Hps' Hlen) as [s2 [b2 [sd2 [th2 [Hrun2 Htop2]]]]].
  rewrite (sorted_rev_reverse py_lt py_lt_irrefl py_lt_trans) in Htop2
    by assumption.
  exists s1, s2, (S (length (heap s))), (S (length (heap s))).
  exists b1, sd1, th1, b2, sd2, th2.
  exists (slice_to (sorted_rev py_lt pts ps) top_count).
  repeat split; try assumption.
  intros p Hp. apply (Permutation_in _ (sorted_rev_perm py_lt pts ps)).
  unfold slice_to in Hp.
  destruct (0 <=? top_count)%Z;
    apply list_elem_of_In, elem_of_take in Hp as [i [Hi _]];
    apply list_elem_of_In; eapply list_elem_of_lookup_2; exact Hi.
Qed.
End ReversalTheorem.

(** ** Rows that do not parse *)

(** ** [get_player_stats] on any rows *)

Lemma good_prefix_all rows :
  Forall (fun row => length (snd row) < 9 \/ 15 <= length (snd row)) rows ->
  good_prefix rows = rows.
Proof.
  induction 1 as [|row rows Hrow _ IH]; simpl; [reflexivity|].
  unfold bad_row.
  destruct (Nat.leb_spec 9 (length (snd row)));
    destruct (Nat.ltb_spec (length (snd row)) 15); simpl;
    try (exfalso; lia); now rewrite IH.
Qed.

Lemma forallb_good_rows rows :
  forallb (fun row => negb (bad_row row)) rows = true <->
  Forall (fun row => length (snd row) < 9 \/ 15 <= length (snd row)) rows.
Proof.
  induction rows as [|row rows IH]; simpl.
  - split; [constructor|reflexivity].
  - rewrite andb_true_iff, IH, List.Forall_cons_iff. unfold bad_row.
    destruct (Nat.leb_spec 9 (length (snd row)));
      destruct (Nat.ltb_spec (length (snd row)) 15); simpl;
      intuition (try lia; try congruence).
Qed.

Lemma bad_row_true row :
  bad_row row = true -> 9 <= length (snd row) < 15.
Proof.
  unfold bad_row. rewrite andb_true_iff, Nat.leb_le, Nat.ltb_lt. tauto.
Qed.

Lemma bad_row_false row :
  bad_row row = false -> length (snd row) < 9 \/ 15 <= length (snd row).
Proof.
  unfold bad_row. rewrite andb_false_iff, Nat.leb_gt, Nat.ltb_ge. tauto.
Qed.

(** The loop of [get_player_stats] on any rows: it handles the rows before
    the first row of 9 to 14 cells and stops there with [IndexError]. *)
Lemma get_player_stats_loop_any rows h0 pls out :
  for_each rows (get_player_stats_row (length h0))
    (mkState (h0 ++ OList (seq (S (length h0)) (length pls))
                 :: player_objects pls) out)
  = (mkState (h0 ++ OList (seq (S (length h0))
                             (length (pls ++ kept_players (good_prefix rows))))
                 :: player_objects (pls ++ kept_players (good_prefix rows)))
       (out ++ diagnostics (good_prefix rows)),
     if forallb (fun row => negb (bad_row row)) rows then Ok tt
     else Raise IndexError).
Proof.
  revert pls out. induction rows as [|row rows IH]; intros pls out; simpl.
  - unfold kept_players, diagnostics. simpl. now rewrite !app_nil_r.
  - rewrite bind_run. destruct (bad_row row) eqn:Hbad; simpl.
    + rewrite (get_player_stats_row_out_of_range _ _ _ (bad_row_true _ Hbad)).
      unfold kept_players, diagnostics. simpl. now rewrite !app_nil_r.
    + unfold kept_players, diagnostics, short_row. simpl.
      destruct (bad_row_false _ Hbad) as [Hshort|Hlong].
      * rewrite get_player_stats_row_skips by assumption. simpl. rewrite IH.
        destruct (Nat.ltb_spec (length (snd row)) 9); [|lia]. simpl.
        unfold kept_players, diagnostics, short_row.
        now rewrite <- app_assoc.
      * rewrite get_player_stats_row_keeps by assumption. rewrite IH.
        destruct (Nat.ltb_spec (length (snd row)) 9); [lia|]. simpl.
        unfold kept_players, diagnostics, short_row.
        now rewrite <- app_assoc.
Qed.

Lemma get_player_stats_run_any names_trs stats_trs s :
  let rows := combine (tail names_trs) (tail stats_trs) in
  get_player_stats names_trs stats_trs s
  = (mkState (heap s ++ OList (seq (S (length (heap s)))
                                 (length (kept_players (good_prefix rows))))
                 :: player_objects (kept_players (good_prefix rows)))
       (stdout s ++ diagnostics (good_prefix rows)),
     if forallb (fun row => negb (bad_row row)) rows
     then Ok (length (heap s)) else Raise IndexError).
Proof.
  intros rows.
  pose proof (get_player_stats_loop_any rows (heap s) [] (stdout s)) as Hloop.
  simpl in Hloop. unfold get_player_stats.
  rewrite bind_run. unfold alloc at 1. rewrite bind_run.
  fold rows. rewrite Hloop.
  now destruct (forallb (fun row => negb (bad_row row)) rows).
Qed.

Lemma forallb_bad_rows rows :
  forallb (fun row => negb (bad_row row)) rows = false <->
  Exists (fun row => 9 <= length (snd row) < 15) rows.
Proof.
  induction rows as [|row rows IH]; simpl.
  - split; [discriminate|]. intros H. inversion H.
  - rewrite andb_false_iff, IH, List.Exists_cons.
    destruct (bad_row row) eqn:Hbad; simpl.
    + pose proof (bad_row_true _ Hbad). tauto.
    + pose proof (bad_row_false _ Hbad).
      intuition (try lia; try congruence).
Qed.

Section ParseTheorems.
Context {F : PyFloat}.

Lemma calculate_mvp_value_error s player_stats ps top_count :
  is_list s player_stats ps ->
  (forall p, In p ps -> exists pl, is_player s p pl) ->
  (exists p pl, In p ps /\ is_player s p pl /\ overall_score pl = None) ->
  exists s', calculate_mvp player_stats top_count s = (s', Raise ValueError).
Proof.
  intros Hl Hps [p0 [pl0 [Hin [Hpl0 Hnone]]]].
  rewrite (calculate_mvp_run _ _ _ _ Hl).
  destruct (map_result (points_result (heap s)) ps) as [kps|e] eqn:Hkps.
  - cbv zeta. rewrite (map_result_raise _ ValueError); [eauto| |].
    + intros p Hp. destruct (Hps p Hp) as [pl Hpl].
      rewrite (overall_result_player _ _ _ Hpl).
      destruct (overall_score pl); simpl; eauto.
    + exists p0. split; [assumption|].
      now rewrite (overall_result_player _ _ _ Hpl0), Hnone.
  - apply map_result_raise_inv in Hkps as [p [Hp Hraise]].
    destruct (Hps p Hp) as [pl Hpl].
    rewrite (points_result_player _ _ _ Hpl) in Hraise.
    destruct (points_value pl); simpl in Hraise; [discriminate|].
    inversion Hraise. eauto.
Qed.

Lemma player_objects_lookup (pre : list obj) pls :
  Forall2 (fun p pl => (pre ++ player_objects pls) !! p
                       = Some (ODict (dict_of_player pl)))
    (seq (length pre) (length pls)) pls.
Proof.
  revert pre. induction pls as [|pl pls IH]; intros pre; simpl.
  - constructor.
  - constructor.
    + now apply list_lookup_middle.
    + specialize (IH (pre ++ [ODict (dict_of_player pl)])).
      rewrite length_app, Nat.add_1_r, <- app_assoc in IH. exact IH.
Qed.

Lemma filter_long_rows rows :
  Forall (fun row => length (snd row) < 9 \/ 15 <= length (snd row)) rows ->
  List.filter (fun row => negb (short_row row)) rows
  = List.filter long_row rows.
Proof.
  induction 1 as [|row rows Hrow _ IH]; simpl; [reflexivity|].
  rewrite IH. unfold short_row, long_row.
  destruct (Nat.ltb_spec (length (snd row)) 9);
    destruct (Nat.leb_spec 15 (length (snd row))); simpl;
    try reflexivity; exfalso; lia.
Qed.

(** C3 (as amended): [get_player_stats] never parses a field.  Whenever it
    returns a list, no row it read has 9 to 14 cells, the rows with at
    least 15 cells have all become players holding the stripped texts of
    the cells 3, 6, 9, 13 and 14, in the order of the rows, whether or not
    these texts are numbers, and a diagnostic has been printed for the rows
    with fewer than 9 cells and for no other row.  If one of these players
    has a numeric field that does not parse, [calculate_mvp] on the list
    fails with [ValueError], whatever [top_count] is. *)
Theorem unparsable_fields_reach_ranking names_trs stats_trs s s'
    player_stats :
  let rows := combine (tail names_trs) (tail stats_trs) in
  let kept := map player_of_row (List.filter long_row rows) in
  get_player_stats names_trs stats_trs s = (s', Ok player_stats) ->
  Forall (fun row => length (snd row) < 9 \/ 15 <= length (snd row)) rows
  /\ exists ps,
       is_list s' player_stats ps
       /\ Forall2 (is_player s') ps kept
       /\ stdout s'
          = stdout s
            ++ map (fun _ => "Invalid row, skipping...")
                 (List.filter short_row rows)
       /\ ((exists pl, In pl kept /\ overall_score pl = None) ->
           forall top_count, exists s'',
             calculate_mvp player_stats top_count s'
             = (s'', Raise ValueError)).
Proof.
  intros rows kept.
  rewrite (get_player_stats_run_any names_trs stats_trs s). fold rows.
  destruct (forallb (fun row => negb (bad_row row)) rows) eqn:Hgood;
    [|discriminate].
  apply forallb_good_rows in Hgood. rewrite (good_prefix_all _ Hgood).
  intros Hrun. inversion Hrun as [[Hs' Hstats]]. clear Hrun.
  split; [exact Hgood|].
  assert (Hkept : kept_players rows = kept).
  { unfold kept_players, kept. now rewrite (filter_long_rows _ Hgood). }
  rewrite Hkept in *.
  set (ps := seq (S (length (heap s))) (length kept)).
  set (s1 := mkState _ _).
  assert (Hl : is_list s1 (length (heap s)) ps).
  { unfold is_list, s1. simpl. now apply list_lookup_middle. }
  assert (Hplayers : Forall2 (is_player s1) ps kept).
  { unfold is_player, is_dict, s1, ps. simpl.
    pose proof (player_objects_lookup (heap s ++ [OList ps]) kept) as H.
    rewrite length_app, Nat.add_1_r, <- app_assoc in H. exact H. }
  exists ps. split; [exact Hl|]. split; [exact Hplayers|].
  split; [reflexivity|].
  intros [pl [Hin Hnone]] top_count.
  apply (calculate_mvp_value_error s1 _ ps); [assumption| |].
  - intros p Hp. apply list_elem_of_In, list_elem_of_lookup in Hp as [i Hi].
    destruct (Forall2_lookup_l _ _ _ _ _ Hplayers Hi) as [pl' [_ Hpl']].
    eauto.
  - apply list_elem_of_In in Hin.
    apply list_elem_of_lookup in Hin as [i Hi].
    destruct (Forall2_lookup_r _ _ _ _ _ Hplayers Hi) as [p [Hp Hpl]].
    exists p, pl. repeat split; try assumption.
    apply list_elem_of_In. eapply list_elem_of_lookup_2. exact Hp.
Qed.
End ParseTheorems.

(** ** The filter *)

Section FilterTheorems.
Context {R : PyRe} {RL : PyReLaws R}.

Lemma search_result_player s p pl pattern :
  is_player s p pl ->
  search_result (heap s) pattern p = re_search_ignorecase pattern (name pl).
Proof using Type.
  intros H. unfold search_result, getitem_result.
  now rewrite (dict_at_player _ _ _ H).
Qed.

Lemma is_player_name s p pl pl' :
  is_player s p pl -> is_player s p pl' -> name pl = name pl'.
Proof using Type.
  unfold is_player, is_dict. intros H H'. rewrite H in H'.
  now inversion H'.
Qed.

Lemma filter_all_true {A} (l : list A) : List.filter (fun _ => true) l = l.
Proof using Type. induction l; simpl; congruence. Qed.

(** C7: [filter_players] returns the players in whose name [re.search]
    finds the pattern, ignoring case; a player named "LeBron King" is kept
    for the pattern "KING" and for the pattern "king". *)
Theorem filter_players_matches s player_stats ps pattern
    (found : loc -> bool) :
  is_list s player_stats ps ->
  (forall p, In p ps ->
     exists pl, is_player s p pl
                /\ re_search_ignorecase pattern (name pl) = Ok (found p)) ->
  exists s' filtered,
    filter_players player_stats pattern s = (s', Ok filtered)
    /\ is_list s' filtered (List.filter found ps)
    /\ (forall p pl, In p ps -> is_player s p pl ->
          name pl = "LeBron King" -> pattern = "KING" \/ pattern = "king" ->
          In p (List.filter found ps)).
Proof using RL.
  intros Hl Hps.
  rewrite (filter_players_run pattern found s player_stats ps Hl).
  2:{ intros p Hp. destruct (Hps p Hp) as [pl [Hpl Hfound]].
      now rewrite (search_result_player _ _ _ _ Hpl). }
  eexists _, _. split; [reflexivity|]. split; [apply lookup_snoc|].
  intros p pl Hp Hpl Hname Hpattern. apply filter_In. split; [assumption|].
  destruct (Hps p Hp) as [pl' [Hpl' Hfound]].
  rewrite <- (is_player_name _ _ _ _ Hpl Hpl'), Hname in Hfound.
  destruct Hpattern as [->| ->];
    rewrite re_search_literal in Hfound by reflexivity;
    now inversion Hfound.
Qed.

(** C8: with the empty pattern the script does not call the filter and
    goes on with the list it has; [filter_players] itself, called with the
    empty pattern, returns a list of the same players in the same order. *)
Theorem filter_empty_pattern s stats ps :
  filter_stage stats "" s = (s, Ok stats)
  /\ (is_list s stats ps ->
      (forall p, In p ps -> exists pl, is_player s p pl) ->
      exists s' filtered,
        filter_players stats "" s = (s', Ok filtered)
        /\ is_list s' filtered ps /\ is_list s' stats ps).
Proof using RL.
  split; [reflexivity|]. intros Hl Hps.
  rewrite (filter_players_run "" (fun _ => true) s stats ps Hl).
  2:{ intros p Hp. destruct (Hps p Hp) as [pl Hpl].
      rewrite (search_result_player _ _ _ _ Hpl). apply re_search_empty. }
  rewrite filter_all_true. eexists _, _.
  split; [reflexivity|]. split; [apply lookup_snoc|].
  unfold is_list. simpl. rewrite lookup_app_l; [exact Hl|].
  now apply lookup_lt_Some in Hl.
Qed.
End FilterTheorems.

(** ** Nothing is mutated *)

Section FrameTheorems.
Context {F : PyFloat} {R : PyRe}.

Lemma calculate_mvp_frame s player_stats top_count :
  exists new r,
    calculate_mvp player_stats top_count s
    = (mkState (heap s ++ new) (stdout s), r).
Proof.
  destruct (heap s !! player_stats) as [[d|ps]|] eqn:Hl.
  - exists [], (Raise TypeError). rewrite calculate_mvp_not_list.
    + rewrite app_nil_r. now destruct s.
    + unfold is_list. intros xs. now rewrite Hl.
  - rewrite (calculate_mvp_run s player_stats ps top_count Hl).
    destruct (map_result (points_result (heap s)) ps); [|eauto].
    cbv zeta. destruct (map_result (overall_result (heap s)) ps); [|eauto].
    destruct (ranking _ ps) as [|b [|sd [|th rest]]]; eauto.
  - exists [], (Raise TypeError). rewrite calculate_mvp_not_list.
    + rewrite app_nil_r. now destruct s.
    + unfold is_list. intros xs. now rewrite Hl.
Qed.

(** C10: [filter_players] and [calculate_mvp] leave every object of the
    store as it is, the list they are given and the player dicts included;
    the list [filter_players] returns holds a subsequence, in order, of the
    addresses in the list it was given. *)
Theorem no_record_mutated s player_stats pattern top_count :
  (forall s' r, filter_players player_stats pattern s = (s', r) ->
     (forall p o, heap s !! p = Some o -> heap s' !! p = Some o)
     /\ (forall ps filtered, is_list s player_stats ps -> r = Ok filtered ->
           exists qs, is_list s' filtered qs /\ sublist qs ps))
  /\ (forall s' r, calculate_mvp player_stats top_count s = (s', r) ->
        forall p o, heap s !! p = Some o -> heap s' !! p = Some o).
Proof.
  split.
  - intros s' r Hrun.
    destruct (filter_players_frame pattern s player_stats)
      as [qs [r' [Hframe [Haddr Hsub]]]].
    rewrite Hframe in Hrun. inversion Hrun. subst. simpl. split.
    + intros p o Hp. rewrite lookup_app_l; [exact Hp|].
      now apply lookup_lt_Some in Hp.
    + intros ps filtered Hps Hr. exists qs.
      rewrite (Haddr filtered Hr). split; [apply lookup_snoc|auto].
  - intros s' r Hrun.
    destruct (calculate_mvp_frame s player_stats top_count)
      as [new [r' Hframe]].
    rewrite Hframe in Hrun. inversion Hrun. subst. simpl.
    intros p o Hp. rewrite lookup_app_l; [exact Hp|].
    now apply lookup_lt_Some in Hp.
Qed.
End FrameTheorems.

(** ** The examples of the specification, run on binary64 *)

(** C6: on the players A, B and C with [top_count = 2] the top players are
    A and B, the overall scores are 135, 150 and 98, and best, second and
    third place are B, A and C. *)
Theorem example_ranking :
  is_player example_state 0 player_A
  /\ is_player example_state 1 player_B
  /\ is_player example_state 2 player_C
  /\ overall_score (F := ieee) player_A = Some 135%float
  /\ overall_score (F := ieee) player_B = Some 150%float
  /\ overall_score (F := ieee) player_C = Some 98%float
  /\ exists s' top_players,
       calculate_mvp (F := ieee) 3 2 example_state
         = (s', Ok (top_players, 1, 0, 2))
       /\ is_list s' top_players [0; 1].
Proof.
  repeat split; try reflexivity.
  eexists _, _. split; vm_compute; reflexivity.
Qed.

(** C1, the claim as stated fails: on the empty list [calculate_mvp] raises
    [IndexError], the out-of-range failure, and no other exception. *)
Lemma empty_list_raises_index_error :
  is_list short_state 3 []
  /\ snd (calculate_mvp (F := ieee) 3 5 short_state) = Raise IndexError
  /\ ~ raises_other_than_index_error
         (snd (calculate_mvp (F := ieee) 3 5 short_state)).
Proof.
  split; [reflexivity|]. split; [reflexivity|].
  intros [e [He Hne]]. vm_compute in He. inversion He. congruence.
Qed.

(** The amended C1 on a list of two players. *)
Lemma calculate_mvp_fewer_than_three_witness :
  exists s', calculate_mvp (F := ieee) 2 5 short_state
             = (s', Raise IndexError).
Proof.
  apply (calculate_mvp_fewer_than_three (F := ieee) short_state 2 [0; 1] 5).
  - reflexivity.
  - intros p [<-|[<-|[]]];
      [exists player_A|exists player_B]; (split; [reflexivity|]);
      eexists; vm_compute; reflexivity.
  - simpl. lia.
Defined.

(** C2, the code at a row of nine cells: the row passes the length check
    of line 32 and the read of [columns[9]] raises [IndexError]. *)
Theorem get_player_stats_nine_cells (header_name player_name : option string)
    (header : list string) (c0 c1 c2 c3 c4 c5 c6 c7 c8 : string) (s : state) :
  get_player_stats [header_name; player_name]
    [header; [c0; c1; c2; c3; c4; c5; c6; c7; c8]] s
  = (mkState (heap s ++ [OList []]) (stdout s), Raise IndexError).
Proof. reflexivity. Qed.

(** C3, the claim as stated fails: the row is kept as a player, nothing is
    printed for it, and the ranking then fails with [ValueError]. *)
Lemma unparsable_row_is_retained :
  py_float (PyFloat := ieee) (points unparsable_player) = None
  /\ exists s' player_stats p,
       get_player_stats [None; Some "A"] [[]; unparsable_row] (mkState [] [])
         = (s', Ok player_stats)
       /\ stdout s' = []
       /\ is_list s' player_stats [p]
       /\ is_player s' p unparsable_player
       /\ snd (calculate_mvp (F := ieee) player_stats 5 s')
          = Raise ValueError.
Proof.
  split; [reflexivity|].
  eexists _, _, _. split; [reflexivity|]. now repeat split.
Qed.

(** The amended C3 on two rows: one with an unparsable points cell, one
    with a single cell. *)
Lemma unparsable_fields_reach_ranking_witness :
  exists s' player_stats p s'',
    get_player_stats [None; Some "A"; Some "B"]
      [[]; unparsable_row; ["short"]] (mkState [] [])
      = (s', Ok player_stats)
    /\ is_list s' player_stats [p]
    /\ is_player s' p unparsable_player
    /\ stdout s' = ["Invalid row, skipping..."]
    /\ calculate_mvp (F := ieee) player_stats 5 s' = (s'', Raise ValueError).
Proof.
  destruct (unparsable_fields_reach_ranking (F := ieee)
              [None; Some "A"; Some "B"] [[]; unparsable_row; ["short"]]
              (mkState [] [])
              (fst (get_player_stats [None; Some "A"; Some "B"]
                      [[]; unparsable_row; ["short"]] (mkState [] [])))
              0 eq_refl)
    as [_ [ps [Hl [Hplayers [Hout Hrank]]]]].
  destruct (Hrank (ex_intro _ unparsable_player
                     (conj (or_introl eq_refl) eq_refl)) 5%Z)
    as [s'' Hs''].
  simpl in Hplayers.
  destruct (Forall2_cons_inv_r _ _ _ _ Hplayers)
    as [p [ps' [Hp [Hnil ->]]]].
  apply Forall2_nil_inv_r in Hnil as ->.
  eexists _, 0, p, s''. split; [reflexivity|].
  split; [exact Hl|]. split; [exact Hp|]. split; [exact Hout|exact Hs''].
Defined.

(** The players of the example store and their parsed fields. *)
Lemma example_players (p : loc) :
  In p [0; 1; 2] ->
  exists pl, is_player example_state p pl
             /\ points_value (F := ieee) pl = Some (example_points p)
             /\ py_isnan (example_points p) = false
             /\ overall_score (F := ieee) pl = Some (example_overall p)
             /\ py_isnan (example_overall p) = false.
Proof.
  intros [<-|[<-|[<-|[]]]];
    [exists player_A|exists player_B|exists player_C];
    repeat split; reflexivity.
Defined.

(** C4 on the example store. *)
Lemma overall_ranking_sorted_witness :
  exists s' top_players overall_list overall best second third,
    calculate_mvp (F := ieee) 3 2 example_state
      = (s', Ok (top_players, best, second, third))
    /\ is_list s' overall_list overall
    /\ sorted_descending PrimFloat.ltb example_overall [0; 1; 2] overall
    /\ overall !! 0 = Some best
    /\ overall !! 1 = Some second
    /\ overall !! 2 = Some third.
Proof.
  apply (overall_ranking_sorted (F := ieee) example_state 3 [0; 1; 2] 2
           example_overall).
  - reflexivity.
  - intros p Hp.
    destruct (example_players p Hp) as [pl [Hpl [_ [_ [Hsc Hnan]]]]].
    exists pl. auto.
  - simpl. lia.
Defined.

(** C5 on the example store with [top_count = 2]. *)
Lemma top_by_points_sorted_witness :
  exists s' top_players by_points best second third,
    calculate_mvp (F := ieee) 3 2 example_state
      = (s', Ok (top_players, best, second, third))
    /\ sorted_descending PrimFloat.ltb example_points [0; 1; 2] by_points
    /\ is_list s' top_players (take 2 by_points)
    /\ length (take 2 by_points) = 2.
Proof.
  apply (top_by_points_sorted (F := ieee) example_state 3 [0; 1; 2] 2
           example_points).
  - reflexivity.
  - intros p Hp.
    destruct (example_players p Hp) as [pl [Hpl [Hpts [Hnan [Hsc _]]]]].
    exists pl. repeat split; eauto.
  - simpl. lia.
  - lia.
Defined.

(** C9 on the example store and its reversed list. *)
Lemma top_by_points_reversed_witness :
  exists s1 s2 top1 top2 b1 sd1 th1 b2 sd2 th2 top,
    calculate_mvp (F := ieee) 3 2 reversal_state
      = (s1, Ok (top1, b1, sd1, th1))
    /\ calculate_mvp (F := ieee) 4 2 reversal_state
       = (s2, Ok (top2, b2, sd2, th2))
    /\ is_list s1 top1 top /\ is_list s2 top2 top
    /\ (forall p, In p top -> In p [0; 1; 2]).
Proof.
  apply (top_by_points_reversed (F := ieee) reversal_state 3 4 [0; 1; 2] 2
           example_points).
  - reflexivity.
  - reflexivity.
  - intros p Hp.
    destruct (example_players p Hp) as [pl [Hpl [Hpts [_ [Hsc _]]]]].
    exists pl. repeat split; eauto.
    unfold is_player, is_dict, reversal_state. simpl.
    destruct Hp as [<-|[<-|[<-|[]]]]; exact Hpl.
  - intros a b [<-|[<-|[<-|[]]]] [<-|[<-|[<-|[]]]] Hne;
      try congruence; vm_compute; auto.
  - simpl. lia.
Defined.

(** C7 on a list with "LeBron King" and the pattern "KING". *)
Lemma filter_players_matches_witness :
  exists s' filtered,
    filter_players (R := literal_re) 2 "KING" king_state = (s', Ok filtered)
    /\ is_list s' filtered [0]
    /\ In 0 [0].
Proof.
  destruct (filter_players_matches (R := literal_re) king_state 2 [0; 1]
              "KING" (fun p => Nat.eqb p 0))
    as [s' [filtered [Hrun [Hlist Hking]]]].
  - reflexivity.
  - intros p [<-|[<-|[]]]; [exists player_King|exists player_A];
      split; reflexivity.
  - exists s', filtered. split; [exact Hrun|]. split; [exact Hlist|].
    apply (Hking 0 player_King); [now left|reflexivity|reflexivity|now left].
Defined.

(** C8 on the example store. *)
Lemma filter_empty_pattern_witness :
  filter_stage (R := literal_re) 3 "" example_state = (example_state, Ok 3)
  /\ exists s' filtered,
       filter_players (R := literal_re) 3 "" example_state
         = (s', Ok filtered)
       /\ is_list s' filtered [0; 1; 2] /\ is_list s' 3 [0; 1; 2].
Proof.
  destruct (filter_empty_pattern (R := literal_re) example_state 3 [0; 1; 2])
    as [Hstage Hfilter].
  split; [exact Hstage|]. apply Hfilter.
  - reflexivity.
  - intros p Hp. destruct (example_players p Hp) as [pl [Hpl _]]. eauto.
Defined.

(** C10 on the example store: the dict of A and the input list are
    where they were after each call. *)
Lemma no_record_mutated_witness :
  heap (fst (filter_players (R := literal_re) 3 "a" example_state)) !! 0
    = Some (ODict (dict_of_player player_A))
  /\ heap (fst (calculate_mvp (F := ieee) 3 2 example_state)) !! 3
     = Some (OList [0; 1; 2])
  /\ exists qs, is_list (fst (filter_players (R := literal_re) 3 "a"
                                example_state)) 4 qs
                /\ sublist qs [0; 1; 2].
Proof.
  destruct (no_record_mutated (F := ieee) (R := literal_re) example_state 3
              "a" 2) as [Hfilter Hrank].
  destruct (Hfilter _ _ eq_refl) as [Hkept Hsub].
  split; [apply Hkept; reflexivity|].
  split; [apply (Hrank _ _ eq_refl); reflexivity|].
  apply Hsub; reflexivity.
Defined.

(** ** The script on the example rows *)

(** The whole script on the rows of A, B and C with the default pattern
    and [--top 2]: it prints the report and names B. *)
Lemma main_example :
  snd (main (F := ieee) (R := literal_re) example_names example_stats "" 2
         (mkState [] []))
  = Ok tt
  /\ last (stdout (fst (main (F := ieee) (R := literal_re) example_names
                          example_stats "" 2 (mkState [] []))))
     = Some "The NBA MVP should be: B".
Proof. split; vm_compute; reflexivity. Qed.

(** With a pattern that leaves fewer than three players the script ends
    with [IndexError] before it prints anything. *)
Lemma main_filtered_index_error :
  main (F := ieee) (R := literal_re) example_names example_stats "a" 2
    (mkState [] [])
  = (mkState (heap (fst (main (F := ieee) (R := literal_re) example_names
                           example_stats "a" 2 (mkState [] [])))) [],
     Raise IndexError).
Proof. vm_compute. reflexivity. Qed.

(** A negative [top_count] is outside the contract of the ranking: the
    slice [[:-1]] drops the last of the players sorted by points. *)
Lemma negative_top_count_example :
  exists s' top_players,
    calculate_mvp (F := ieee) 3 (-1) example_state
      = (s', Ok (top_players, 1, 0, 2))
    /\ is_list s' top_players [0; 1].
Proof. eexists _, _. split; vm_compute; reflexivity. Qed.

(** * Further properties of the script *)

(** ** [get_player_stats] on any rows, continued *)

(** X1: [get_player_stats] returns exactly when no row it reads has 9 to
    14 cells; as soon as there is one it raises [IndexError], whatever the
    other rows are. *)
Theorem get_player_stats_returns_iff names_trs stats_trs s :
  let rows := combine (tail names_trs) (tail stats_trs) in
  (snd (get_player_stats names_trs stats_trs s) = Ok (length (heap s))
   <-> Forall (fun row => length (snd row) < 9 \/ 15 <= length (snd row))
         rows)
  /\ (snd (get_player_stats names_trs stats_trs s) = Raise IndexError
      <-> Exists (fun row => 9 <= length (snd row) < 15) rows).
Proof.
  intros rows. rewrite (get_player_stats_run_any names_trs stats_trs s).
  fold rows. simpl. rewrite <- forallb_good_rows, <- forallb_bad_rows.
  destruct (forallb (fun row => negb (bad_row row)) rows);
    split; split; congruence.
Qed.

Lemma filter_partition_length {A} (f : A -> bool) (l : list A) :
  length (List.filter f l) + length (List.filter (fun x => negb (f x)) l)
  = length l.
Proof.
  induction l as [|x l IH]; simpl; [reflexivity|].
  destruct (f x); simpl; lia.
Qed.

Lemma length_tail {A} (l : list A) : length (tail l) = length l - 1.
Proof. destruct l; simpl; lia. Qed.

(** X2: when [get_player_stats] returns, every row it read is accounted
    for: the number of players in the list plus the number of diagnostics
    printed is the number of row pairs, which is the number of rows of the
    shorter table without its header. *)
Theorem get_player_stats_counts names_trs stats_trs s s' player_stats :
  get_player_stats names_trs stats_trs s = (s', Ok player_stats) ->
  exists ps skipped,
    is_list s' player_stats ps
    /\ stdout s' = stdout s ++ repeat "Invalid row, skipping..." skipped
    /\ length ps + skipped
       = Nat.min (length names_trs - 1) (length stats_trs - 1).
Proof.
  rewrite (get_player_stats_run_any names_trs stats_trs s).
  set (rows := combine (tail names_trs) (tail stats_trs)).
  destruct (forallb (fun row => negb (bad_row row)) rows) eqn:Hgood;
    [|discriminate].
  apply forallb_good_rows, good_prefix_all in Hgood. rewrite Hgood.
  intros H. inversion H. subst. clear H.
  exists (seq (S (length (heap s))) (length (kept_players rows))).
  exists (length (List.filter short_row rows)).
  split; [now apply list_lookup_middle|]. split.
  - simpl. f_equal. unfold diagnostics.
    induction (List.filter short_row rows); simpl; congruence.
  - rewrite length_seq. unfold kept_players. rewrite length_map.
    rewrite Nat.add_comm, filter_partition_length.
    unfold rows. now rewrite length_combine, !length_tail.
Qed.

(** X3: whatever the rows, [get_player_stats] changes no object that was
    in the store, prints nothing but diagnostics, and the list it returns
    holds new dicts only, each of them once. *)
Theorem get_player_stats_fresh names_trs stats_trs s :
  exists new out,
    heap (fst (get_player_stats names_trs stats_trs s)) = heap s ++ new
    /\ stdout (fst (get_player_stats names_trs stats_trs s))
       = stdout s ++ out
    /\ Forall (fun line => line = "Invalid row, skipping...") out
    /\ (forall player_stats,
          snd (get_player_stats names_trs stats_trs s) = Ok player_stats ->
          exists ps,
            is_list (fst (get_player_stats names_trs stats_trs s))
              player_stats ps
            /\ NoDup ps
            /\ Forall (fun p => length (heap s) < p) ps).
Proof.
  rewrite (get_player_stats_run_any names_trs stats_trs s).
  set (rows := combine (tail names_trs) (tail stats_trs)). simpl.
  eexists _, _. split; [reflexivity|]. split; [reflexivity|]. split.
  - unfold diagnostics. apply List.Forall_forall. intros line Hline.
    apply in_map_iff in Hline as [row [<- _]]. reflexivity.
  - intros player_stats Hok.
    destruct (forallb (fun row => negb (bad_row row)) rows); [|discriminate].
    inversion Hok. subst. eexists. split; [now apply list_lookup_middle|].
    split; [apply NoDup_ListNoDup, seq_NoDup|].
    apply List.Forall_forall. intros p Hp. apply in_seq in Hp. lia.
Qed.

(** ** [calculate_mvp]: the podium and the top players *)

Lemma map_snd_combine {A B} (ks : list A) (xs : list B) :
  length ks = length xs -> map snd (combine ks xs) = xs.
Proof.
  revert xs. induction ks as [|k ks IH]; intros [|x xs] H; simpl in *;
    try discriminate; [reflexivity|]. f_equal. apply IH. lia.
Qed.

Section PodiumFacts.
Context {F : PyFloat}.

Lemma ranking_perm ks (xs : list loc) :
  length ks = length xs -> Permutation (ranking ks xs) xs.
Proof.
  intros H. unfold ranking.
  rewrite (sort_keyed_rev_perm py_lt). now rewrite map_snd_combine.
Qed.

Lemma slice_to_prefix {A} (l : list A) k :
  exists n, slice_to l k = take n l.
Proof. unfold slice_to. destruct (0 <=? k)%Z; eauto. Qed.

Lemma calculate_mvp_parsed s ps :
  (forall p, In p ps ->
     exists pl, is_player s p pl /\ is_Some (overall_score pl)) ->
  exists kps kos,
    map_result (points_result (heap s)) ps = Ok kps
    /\ map_result (overall_result (heap s)) ps = Ok kos
    /\ length kps = length ps /\ length kos = length ps.
Proof.
  intros Hps.
  destruct (map_result_players (points_result (heap s)) points_value s ps)
    as [kps [Hkps Hlp]].
  { intros p pl. apply points_result_player. }
  { intros p Hp. destruct (Hps p Hp) as [pl [Hpl Hsome]].
    exists pl. auto using overall_score_points. }
  destruct (map_result_players (overall_result (heap s)) overall_score s ps)
    as [kos [Hkos Hlo]]; [intros p pl; apply overall_result_player|exact Hps|].
  eauto 10.
Qed.

(** X4: best, second and third place and the top players are players of
    the input; when no player occurs twice in the input, the three places
    are three different players and no top player is listed twice. *)
Theorem podium_from_input s player_stats ps top_count :
  is_list s player_stats ps ->
  (forall p, In p ps ->
     exists pl, is_player s p pl /\ is_Some (overall_score pl)) ->
  3 <= length ps ->
  exists s' top_players tops best second third,
    calculate_mvp player_stats top_count s
      = (s', Ok (top_players, best, second, third))
    /\ is_list s' top_players tops
    /\ In best ps /\ In second ps /\ In third ps
    /\ (forall p, In p tops -> In p ps)
    /\ (NoDup ps ->
        best <> second /\ best <> third /\ second <> third /\ NoDup tops).
Proof.
  intros Hl Hps Hlen. rewrite (calculate_mvp_run _ _ _ _ Hl).
  destruct (calculate_mvp_parsed s ps Hps)
    as [kps [kos [-> [-> [Hlp Hlo]]]]].
  cbv zeta.
  pose proof (ranking_perm kos ps Hlo) as Hperm.
  pose proof (ranking_perm kps ps Hlp) as Hperm_pts.
  destruct (slice_to_prefix (ranking kps ps) top_count) as [n Hn].
  pose proof (Permutation_length Hperm) as Hr.
  destruct (ranking kos ps) as [|b [|sd [|th rest]]]; simpl in Hr; try lia.
  eexists _, _, (slice_to (ranking kps ps) top_count), b, sd, th.
  split; [reflexivity|]. split.
  { unfold is_list. simpl. rewrite lookup_app_r by lia.
    replace (S (length (heap s)) - length (heap s)) with 1 by lia.
    reflexivity. }
  split; [apply (Permutation_in _ Hperm); now left|].
  split; [apply (Permutation_in _ Hperm); right; now left|].
  split; [apply (Permutation_in _ Hperm); right; right; now left|].
  split.
  - intros p Hp. apply (Permutation_in _ Hperm_pts). rewrite Hn in Hp.
    apply list_elem_of_In, elem_of_take in Hp as [i [Hi _]].
    apply list_elem_of_In. eapply list_elem_of_lookup_2. exact Hi.
  - intros Hnodup. assert (Hnodup_pts := Hnodup).
    rewrite <- Hperm in Hnodup. rewrite <- Hperm_pts in Hnodup_pts.
    apply NoDup_cons in Hnodup as [Hb Hrest].
    apply NoDup_cons in Hrest as [Hsd _].
    rewrite !not_elem_of_cons in Hb. rewrite not_elem_of_cons in Hsd.
    split; [tauto|]. split; [tauto|]. split; [tauto|].
    rewrite Hn. apply (sublist_NoDup _ (ranking kps ps));
      [exact Hnodup_pts|apply sublist_take].
Qed.

(** X5: the number of top players for every [top_count]: at most
    [top_count] of them when it is not negative, and for a negative
    [top_count] all the players but the last [- top_count] of the ranking
    by points. *)
Theorem top_players_length s player_stats ps top_count :
  is_list s player_stats ps ->
  (forall p, In p ps ->
     exists pl, is_player s p pl /\ is_Some (overall_score pl)) ->
  3 <= length ps ->
  exists s' top_players tops best second third,
    calculate_mvp player_stats top_count s
      = (s', Ok (top_players, best, second, third))
    /\ is_list s' top_players tops
    /\ ((0 <= top_count)%Z ->
        length tops = Nat.min (Z.to_nat top_count) (length ps))
    /\ ((top_count < 0)%Z ->
        length tops = length ps - Z.to_nat (- top_count)).
Proof.
  intros Hl Hps Hlen. rewrite (calculate_mvp_run _ _ _ _ Hl).
  destruct (calculate_mvp_parsed s ps Hps)
    as [kps [kos [-> [-> [Hlp Hlo]]]]].
  cbv zeta.
  pose proof (Permutation_length (ranking_perm kos ps Hlo)) as Hr.
  pose proof (Permutation_length (ranking_perm kps ps Hlp)) as Hrp.
  destruct (ranking kos ps) as [|b [|sd [|th rest]]]; simpl in Hr; try lia.
  eexists _, _, (slice_to (ranking kps ps) top_count), b, sd, th.
  split; [reflexivity|]. split.
  { unfold is_list. simpl. rewrite lookup_app_r by lia.
    replace (S (length (heap s)) - length (heap s)) with 1 by lia.
    reflexivity. }
  unfold slice_to. split; intros Htop.
  - destruct (Z.leb_spec 0 top_count); [|lia]. rewrite length_take. lia.
  - destruct (Z.leb_spec 0 top_count); [lia|]. rewrite length_take. lia.
Qed.
End PodiumFacts.

Section DominanceTheorems.
Context {F : PyFloat} {L : PyFloatLaws F}.

(** X6: no player has a higher overall score than the best player, no
    player but the best has a higher score than the second, and no player
    off the podium has a higher score than the third. *)
Theorem podium_dominates s player_stats ps top_count
    (score : loc -> pyfloat) :
  is_list s player_stats ps ->
  (forall p, In p ps ->
     exists pl, is_player s p pl /\ overall_score pl = Some (score p)
                /\ py_isnan (score p) = false) ->
  3 <= length ps ->
  exists s' top_players best second third others,
    calculate_mvp player_stats top_count s
      = (s', Ok (top_players, best, second, third))
    /\ Permutation (best :: second :: third :: others) ps
    /\ (forall p, In p ps -> py_lt (score best) (score p) = false)
    /\ (forall p, In p (third :: others) ->
          py_lt (score second) (score p) = false)
    /\ (forall p, In p others -> py_lt (score third) (score p) = false).
Proof using L.
  intros Hl Hps Hlen. rewrite (calculate_mvp_run _ _ _ _ Hl).
  destruct (calculate_mvp_parsed s ps) as [kps [kos [-> [Hkos _]]]].
  { intros p Hp. destruct (Hps p Hp) as [pl [Hpl [Hsc _]]]. eauto. }
  rewrite (map_result_ok _ score) in Hkos.
  2:{ intros p Hp. destruct (Hps p Hp) as [pl [Hpl [Hsc _]]].
      now rewrite (overall_result_player _ _ _ Hpl), Hsc. }
  rewrite (map_result_ok _ score).
  2:{ intros p Hp. destruct (Hps p Hp) as [pl [Hpl [Hsc _]]].
      now rewrite (overall_result_player _ _ _ Hpl), Hsc. }
  cbv zeta. rewrite ranking_sorted_rev.
  pose proof (sorted_rev_perm py_lt score ps) as Hperm.
  pose proof (sorted_rev_desc py_lt py_lt_irrefl py_lt_trans score ps)
    as Hdesc.
  pose proof (Permutation_length Hperm) as Hr.
  destruct (sorted_rev py_lt score ps) as [|b [|sd [|th rest]]];
    simpl in Hr; try lia.
  apply StronglySorted_inv in Hdesc as [Hdesc Hb].
  apply StronglySorted_inv in Hdesc as [Hdesc Hsd].
  apply StronglySorted_inv in Hdesc as [_ Hth].
  rewrite List.Forall_forall in Hb, Hsd, Hth.
  eexists _, _, b, sd, th, rest.
  split; [reflexivity|]. split; [exact Hperm|]. repeat split; auto.
  intros p Hp. apply (Permutation_in _ (Permutation_sym Hperm)) in Hp.
  destruct Hp as [<-|Hp]; [apply py_lt_irrefl|auto].
Qed.

(** X7: for every [top_count] the top players are a leading part of the
    ranking by points: no player left out of them has more points than a
    player among them. *)
Theorem top_players_dominate s player_stats ps top_count
    (pts : loc -> pyfloat) :
  is_list s player_stats ps ->
  (forall p, In p ps ->
     exists pl, is_player s p pl /\ points_value pl = Some (pts p)
                /\ py_isnan (pts p) = false
                /\ is_Some (overall_score pl)) ->
  3 <= length ps ->
  exists s' top_players tops others best second third,
    calculate_mvp player_stats top_count s
      = (s', Ok (top_players, best, second, third))
    /\ is_list s' top_players tops
    /\ Permutation (tops ++ others) ps
    /\ (forall a b, In a tops -> In b others ->
          py_lt (pts a) (pts b) = false).
Proof using L.
  intros Hl Hps Hlen. rewrite (calculate_mvp_run _ _ _ _ Hl).
  rewrite (map_result_ok _ pts).
  2:{ intros p Hp. destruct (Hps p Hp) as [pl [Hpl [Hpts _]]].
      now rewrite (points_result_player _ _ _ Hpl), Hpts. }
  destruct (calculate_mvp_parsed s ps) as [kps [kos [_ [-> [_ Hlo]]]]].
  { intros p Hp. destruct (Hps p Hp) as [pl [Hpl [_ [_ Hsc]]]]. eauto. }
  cbv zeta. rewrite ranking_sorted_rev.
  pose proof (Permutation_length (ranking_perm kos ps Hlo)) as Hr.
  destruct (ranking kos ps) as [|b [|sd [|th rest]]]; simpl in Hr; try lia.
  destruct (slice_to_prefix (sorted_rev py_lt pts ps) top_count) as [n Hn].
  pose proof (sorted_rev_desc py_lt py_lt_irrefl py_lt_trans pts ps)
    as Hdesc.
  rewrite <- (take_drop n (sorted_rev py_lt pts ps)) in Hdesc.
  eexists _, _, (slice_to (sorted_rev py_lt pts ps) top_count),
    (drop n (sorted_rev py_lt pts ps)), b, sd, th.
  split; [reflexivity|]. split.
  { unfold is_list. simpl. rewrite lookup_app_r by lia.
    replace (S (length (heap s)) - length (heap s)) with 1 by lia.
    reflexivity. }
  rewrite Hn. split.
  - rewrite take_drop. apply sorted_rev_perm.
  - intros x y Hx Hy.
    apply (StronglySorted_app_1_elem_of _ _ _ _ _ Hdesc);
      now apply list_elem_of_In.
Qed.
End DominanceTheorems.

(** ** [calculate_mvp] on items that are not player dicts *)

Lemma map_result_first_raise {A B} (g : A -> result B) before x after e :
  (forall y, In y before -> exists v, g y = Ok v) ->
  g x = Raise e ->
  map_result g (before ++ x :: after) = Raise e.
Proof.
  intros Hbefore Hx. induction before as [|y before IH]; simpl.
  - now rewrite Hx.
  - destruct (Hbefore y) as [v ->]; [now left|].
    rewrite IH; [reflexivity|]. intros z Hz. apply Hbefore. now right.
Qed.

Lemma dict_lookup_in (d : dict) k v :
  List.NoDup (dict_keys d) -> In (k, v) d -> dict_lookup d k = Some v.
Proof.
  induction d as [|[k' v'] d IH]; simpl; [easy|].
  intros Hnodup [Heq|Hin].
  - inversion Heq. subst. now rewrite String.eqb_refl.
  - inversion Hnodup as [|? ? Hk' Hd]. subst.
    destruct (String.eqb_spec k' k) as [->|_]; [|auto].
    exfalso. apply Hk'. unfold dict_keys.
    change k with (fst (k, v)). now apply in_map.
Qed.

Section ItemTheorems.
Context {F : PyFloat}.

(** X8: the first item of the list that is not a dict with a ['Points']
    entry ends [calculate_mvp]: with [KeyError] when it is a dict without
    this key, with [TypeError] when it is a list. *)
Theorem calculate_mvp_bad_item s player_stats before p after top_count :
  is_list s player_stats (before ++ p :: after) ->
  (forall q, In q before ->
     exists pl, is_player s q pl /\ is_Some (points_value pl)) ->
  (forall d, is_dict s p d -> dict_lookup d "Points" = None ->
     exists s', calculate_mvp player_stats top_count s
                = (s', Raise KeyError))
  /\ (forall xs, is_list s p xs ->
        exists s', calculate_mvp player_stats top_count s
                   = (s', Raise TypeError)).
Proof.
  intros Hl Hbefore.
  assert (Hok : forall q, In q before ->
            exists v, points_result (heap s) q = Ok v).
  { intros q Hq. destruct (Hbefore q Hq) as [pl [Hpl [v Hv]]].
    exists v. now rewrite (points_result_player _ _ _ Hpl), Hv. }
  split.
  - intros d Hd Hnone. rewrite (calculate_mvp_run _ _ _ _ Hl).
    rewrite (map_result_first_raise _ _ _ _ KeyError Hok); [eauto|].
    unfold points_result, field_result, getitem_result, dict_at.
    unfold is_dict in Hd. now rewrite Hd, Hnone.
  - intros xs Hxs. rewrite (calculate_mvp_run _ _ _ _ Hl).
    rewrite (map_result_first_raise _ _ _ _ TypeError Hok); [eauto|].
    unfold points_result, field_result, getitem_result, dict_at.
    unfold is_list in Hxs. now rewrite Hxs.
Qed.

Lemma map_result_entries (h : list obj) p (d d' : dict) :
  dict_at h p = Some d ->
  (forall kv, In kv d' -> dict_lookup d (fst kv) = Some (snd kv)) ->
  map_result (field_result h p)
    (List.filter (fun key => negb (String.eqb key "Player")) (dict_keys d'))
  = map_result float_result
      (map snd (List.filter
                  (fun kv => negb (String.eqb (fst kv) "Player")) d')).
Proof.
  intros Hd. induction d' as [|[k v] d' IH]; simpl; intros Hin;
    [reflexivity|].
  destruct (negb (String.eqb k "Player")); simpl.
  - unfold field_result at 1, getitem_result. rewrite Hd.
    pose proof (Hin (k, v) (or_introl eq_refl)) as Hk. simpl in Hk.
    rewrite Hk.
    rewrite IH by (intros kv Hkv; apply Hin; now right). reflexivity.
  - apply IH. intros kv Hkv. apply Hin. now right.
Qed.

Lemma map_result_floats (values : list string) (vals : list pyfloat) :
  Forall2 (fun v x => py_float v = Some x) values vals ->
  map_result float_result values = Ok vals.
Proof.
  induction 1 as [|v x values vals Hv _ IH]; simpl; [reflexivity|].
  unfold float_result at 1. now rewrite Hv, IH.
Qed.

(** X9: on a dict with string keys and string values, of any size, the
    overall key reads all the values but the one under ['Player'], in the
    order of the dict, and never parses the name: when these values are
    all numbers the key is their sum, and when one of them is not a number
    the key raises [ValueError]. *)
Theorem key_overall_sums_entries s p (d : dict) :
  let values :=
    map snd (List.filter (fun kv => negb (String.eqb (fst kv) "Player")) d) in
  is_dict s p d ->
  List.NoDup (dict_keys d) ->
  (forall vals,
     Forall2 (fun v x => py_float v = Some x) values vals ->
     key_overall p s = (s, Ok (py_sum vals)))
  /\ ((exists v, In v values /\ py_float v = None) ->
      key_overall p s = (s, Raise ValueError)).
Proof.
  intros values Hd Hnodup.
  assert (Hat : dict_at (heap s) p = Some d).
  { unfold dict_at. unfold is_dict in Hd. now rewrite Hd. }
  assert (Hrun : key_overall p s
                 = (s, match map_result float_result values with
                       | Ok vals => Ok (py_sum vals)
                       | Raise e => Raise e
                       end)).
  { rewrite key_overall_run. unfold overall_result. rewrite Hat.
    rewrite (map_result_entries _ _ d d Hat); [reflexivity|].
    intros [k v] Hkv. now apply dict_lookup_in. }
  rewrite Hrun. split.
  - intros vals Hvals. now rewrite (map_result_floats _ _ Hvals).
  - intros [v [Hin Hv]].
    rewrite (map_result_raise float_result ValueError values);
      [reflexivity| |].
    + intros v' _. unfold float_result. destruct (py_float v'); eauto.
    + exists v. split; [exact Hin|]. unfold float_result. now rewrite Hv.
Qed.
End ItemTheorems.

(** ** [filter_players]: composition and errors *)

Lemma filter_filter_and {A} (f1 f2 : A -> bool) (l : list A) :
  List.filter f2 (List.filter f1 l) = List.filter (fun x => f1 x && f2 x) l.
Proof.
  induction l as [|x l IH]; simpl; [reflexivity|].
  destruct (f1 x); simpl; [|exact IH]. destruct (f2 x); now rewrite IH.
Qed.

Lemma for_each_app {A} (xs ys : list A) (body : A -> M unit) s :
  for_each (xs ++ ys) body s
  = match for_each xs body s with
    | (s', Ok _) => for_each ys body s'
    | (s', Raise e) => (s', Raise e)
    end.
Proof.
  revert s. induction xs as [|x xs IH]; intros s; simpl; [reflexivity|].
  rewrite !bind_run. destruct (body x s) as [s' [[]|e]]; [apply IH|reflexivity].
Qed.

Section FilterComposition.
Context {R : PyRe}.

Lemma search_result_snoc h xs pattern p :
  search_result (h ++ [OList xs]) pattern p = search_result h pattern p.
Proof. unfold search_result. now rewrite getitem_result_snoc. Qed.

Lemma filter_players_then s player_stats ps pattern1 pattern2
    (found1 found2 : loc -> bool) :
  is_list s player_stats ps ->
  (forall p, In p ps ->
     search_result (heap s) pattern1 p = Ok (found1 p)
     /\ search_result (heap s) pattern2 p = Ok (found2 p)) ->
  exists s1 filtered1 s2 filtered2,
    filter_players player_stats pattern1 s = (s1, Ok filtered1)
    /\ filter_players filtered1 pattern2 s1 = (s2, Ok filtered2)
    /\ is_list s2 filtered2
         (List.filter (fun p => found1 p && found2 p) ps).
Proof.
  intros Hl Hps.
  rewrite (filter_players_run pattern1 found1 s player_stats ps Hl)
    by (intros p Hp; now apply Hps).
  eexists _, _.
  rewrite (filter_players_run pattern2 found2 _ _ (List.filter found1 ps)).
  - eexists _, _. split; [reflexivity|]. split; [reflexivity|].
    rewrite filter_filter_and. apply lookup_snoc.
  - apply lookup_snoc.
  - intros p Hp. apply filter_In in Hp as [Hp _]. simpl.
    rewrite search_result_snoc. now apply Hps.
Qed.

(** X10: filtering the result of a filter keeps the players both patterns
    are found in, whichever pattern comes first; filtering twice with one
    pattern keeps what filtering once keeps. *)
Theorem filter_players_compose s player_stats ps pattern1 pattern2
    (found1 found2 : loc -> bool) :
  is_list s player_stats ps ->
  (forall p, In p ps ->
     exists pl, is_player s p pl
                /\ re_search_ignorecase pattern1 (name pl) = Ok (found1 p)
                /\ re_search_ignorecase pattern2 (name pl) = Ok (found2 p)) ->
  exists s1 filtered1 s2 filtered12 t1 filtered2 t2 filtered21,
    filter_players player_stats pattern1 s = (s1, Ok filtered1)
    /\ filter_players filtered1 pattern2 s1 = (s2, Ok filtered12)
    /\ filter_players player_stats pattern2 s = (t1, Ok filtered2)
    /\ filter_players filtered2 pattern1 t1 = (t2, Ok filtered21)
    /\ is_list s2 filtered12
         (List.filter (fun p => found1 p && found2 p) ps)
    /\ is_list t2 filtered21
         (List.filter (fun p => found1 p && found2 p) ps).
Proof.
  intros Hl Hps.
  assert (Hsearch : forall p, In p ps ->
            search_result (heap s) pattern1 p = Ok (found1 p)
            /\ search_result (heap s) pattern2 p = Ok (found2 p)).
  { intros p Hp. destruct (Hps p Hp) as [pl [Hpl [H1 H2]]].
    now rewrite !(search_result_player _ _ _ _ Hpl). }
  destruct (filter_players_then s player_stats ps pattern1 pattern2
              found1 found2 Hl Hsearch)
    as [s1 [filtered1 [s2 [filtered12 [Hrun1 [Hrun12 Hlist12]]]]]].
  destruct (filter_players_then s player_stats ps pattern2 pattern1
              found2 found1 Hl)
    as [t1 [filtered2 [t2 [filtered21 [Hrun2 [Hrun21 Hlist21]]]]]].
  { intros p Hp. destruct (Hsearch p Hp). auto. }
  exists s1, filtered1, s2, filtered12, t1, filtered2, t2, filtered21.
  repeat split; try assumption.
  rewrite (filter_ext _ (fun p => found2 p && found1 p));
    [exact Hlist21|]. intros p. apply andb_comm.
Qed.

Lemma filter_players_loop_ok pattern s before acc :
  (forall q, In q before ->
     exists ql found, is_player s q ql
       /\ re_search_ignorecase pattern (name ql) = Ok found) ->
  exists ys,
    for_each before (filter_players_body pattern (length (heap s)))
      (mkState (heap s ++ [OList acc]) (stdout s))
    = (mkState (heap s ++ [OList (acc ++ ys)]) (stdout s), Ok tt).
Proof.
  revert acc. induction before as [|q before IH]; intros acc Hbefore; simpl.
  - exists []. now rewrite app_nil_r.
  - rewrite bind_run, filter_players_body_run.
    destruct (Hbefore q) as [ql [found [Hql Hfound]]]; [now left|].
    rewrite (search_result_player _ _ _ _ Hql), Hfound.
    assert (Hrest : forall q', In q' before ->
              exists ql' found', is_player s q' ql'
                /\ re_search_ignorecase pattern (name ql') = Ok found').
    { intros q' Hq'. apply Hbefore. now right. }
    destruct found.
    + destruct (IH (acc ++ [q]) Hrest) as [ys ->].
      exists (q :: ys). now rewrite <- app_assoc.
    + destruct (IH acc Hrest) as [ys ->]. eauto.
Qed.

(** X11: [re.search] is called once per player, in order: on the empty
    list [filter_players] returns an empty list whatever the pattern is,
    and the first player on whose name [re.search] raises an exception
    ends the call with this exception. *)
Theorem filter_players_raises s player_stats pattern :
  (is_list s player_stats [] ->
   filter_players player_stats pattern s
   = (mkState (heap s ++ [OList []]) (stdout s), Ok (length (heap s))))
  /\ (forall before p after pl e,
        is_list s player_stats (before ++ p :: after) ->
        (forall q, In q before ->
           exists ql found, is_player s q ql
             /\ re_search_ignorecase pattern (name ql) = Ok found) ->
        is_player s p pl ->
        re_search_ignorecase pattern (name pl) = Raise e ->
        exists s', filter_players player_stats pattern s = (s', Raise e)).
Proof.
  split.
  - intros Hl.
    rewrite (filter_players_run pattern (fun _ => true) s player_stats []
               Hl); [reflexivity|]. intros p [].
  - intros before p after pl e Hl Hbefore Hpl Hraise.
    unfold filter_players. rewrite bind_run. unfold alloc at 1.
    rewrite bind_run, (list_items_run _ _ (before ++ p :: after)).
    2:{ unfold is_list. simpl. rewrite lookup_app_l; [exact Hl|].
        now apply lookup_lt_Some in Hl. }
    rewrite bind_run, for_each_app.
    destruct (filter_players_loop_ok pattern s before [] Hbefore)
      as [ys Hys].
    rewrite Hys. simpl.
    rewrite bind_run, filter_players_body_run.
    rewrite (search_result_player _ _ _ _ Hpl), Hraise.
    eexists. reflexivity.
Qed.
End FilterComposition.

(** ** The script body *)







Section MainFacts.
Context {F : PyFloat} {R : PyRe}.






End MainFacts.

Section MainTheorems.
Context {F : PyFloat} {R : PyRe}.







End MainTheorems.

(** ** What the podium depends on *)

Section PodiumInvariance.
Context {F : PyFloat} {L : PyFloatLaws F}.

(** X15: [top_count] has no part in the outcome of [calculate_mvp] other
    than the list of top players: for two values of it the call raises the
    same exception or returns the same best, second and third place. *)
Theorem podium_independent_of_top_count s player_stats top1 top2 :
  match snd (calculate_mvp player_stats top1 s),
        snd (calculate_mvp player_stats top2 s) with
  | Ok (_, best1, second1, third1), Ok (_, best2, second2, third2) =>
      best1 = best2 /\ second1 = second2 /\ third1 = third2
  | Raise e1, Raise e2 => e1 = e2
  | _, _ => False
  end.
Proof using Type.
  destruct (heap s !! player_stats) as [[d|ps]|] eqn:Hl.
  - rewrite !calculate_mvp_not_list; [reflexivity| |];
      unfold is_list; intros xs; now rewrite Hl.
  - rewrite !(calculate_mvp_run s player_stats ps _ Hl).
    destruct (map_result (points_result (heap s)) ps); [|reflexivity].
    cbv zeta. destruct (map_result (overall_result (heap s)) ps);
      [|reflexivity].
    destruct (ranking _ ps) as [|b [|sd [|th rest]]]; simpl; auto.
  - rewrite !calculate_mvp_not_list; [reflexivity| |];
      unfold is_list; intros xs; now rewrite Hl.
Qed.

(** X16: when different players have different overall scores and
    different points, the order of the input has no part in the result:
    on two lists holding the same players [calculate_mvp] returns the same
    best, second and third place and the same top players. *)
Theorem ranking_permutation_invariant s stats1 stats2 ps1 ps2 top_count
    (pts score : loc -> pyfloat) :
  is_list s stats1 ps1 ->
  is_list s stats2 ps2 ->
  Permutation ps1 ps2 ->
  (forall p, In p ps1 ->
     exists pl, is_player s p pl /\ points_value pl = Some (pts p)
                /\ overall_score pl = Some (score p)) ->
  (forall a b, In a ps1 -> In b ps1 -> a <> b ->
     (py_lt (pts a) (pts b) = true \/ py_lt (pts b) (pts a) = true)
     /\ (py_lt (score a) (score b) = true
         \/ py_lt (score b) (score a) = true)) ->
  3 <= length ps1 ->
  exists s1 s2 top1 top2 tops best second third,
    calculate_mvp stats1 top_count s = (s1, Ok (top1, best, second, third))
    /\ calculate_mvp stats2 top_count s
       = (s2, Ok (top2, best, second, third))
    /\ is_list s1 top1 tops /\ is_list s2 top2 tops.
Proof using L.
  intros Hl1 Hl2 Hperm Hps Hdistinct Hlen.
  assert (Hrun : forall l xs, is_list s l xs -> Permutation xs ps1 ->
            calculate_mvp l top_count s
            = (let by_points := sorted_rev py_lt pts ps1 in
               let top := slice_to by_points top_count in
               let by_overall := sorted_rev py_lt score ps1 in
               let s' := mkState (heap s ++ [OList by_points; OList top;
                                             OList by_overall])
                           (stdout s) in
               match by_overall with
               | best :: second :: third :: _ =>
                   (s', Ok (S (length (heap s)), best, second, third))
               | _ => (s', Raise IndexError)
               end)).
  { intros l xs Hxs Hp. rewrite (calculate_mvp_run _ _ _ _ Hxs).
    assert (Hxs_ps : forall p, In p xs ->
              exists pl, is_player s p pl /\ points_value pl = Some (pts p)
                         /\ overall_score pl = Some (score p)).
    { intros p Hin. apply Hps, (Permutation_in _ Hp), Hin. }
    rewrite (map_result_ok _ pts).
    2:{ intros p Hin. destruct (Hxs_ps p Hin) as [pl [Hpl [Hpts _]]].
        now rewrite (points_result_player _ _ _ Hpl), Hpts. }
    rewrite (map_result_ok _ score).
    2:{ intros p Hin. destruct (Hxs_ps p Hin) as [pl [Hpl [_ Hsc]]].
        now rewrite (overall_result_player _ _ _ Hpl), Hsc. }
    cbv zeta. rewrite !ranking_sorted_rev.
    assert (Hsame : forall key : loc -> pyfloat,
              (forall a b, In a ps1 -> In b ps1 -> a <> b ->
                 py_lt (key a) (key b) = true
                 \/ py_lt (key b) (key a) = true) ->
              sorted_rev py_lt key xs = sorted_rev py_lt key ps1).
    { intros key Hkey. apply (descending_unique py_lt key ps1); auto.
      - now rewrite sorted_rev_perm.
      - apply sorted_rev_perm.
      - apply sorted_rev_desc; [apply py_lt_irrefl|apply py_lt_trans].
      - apply sorted_rev_desc; [apply py_lt_irrefl|apply py_lt_trans]. }
    rewrite (Hsame pts), (Hsame score); [reflexivity| |];
      intros a b Ha Hb Hne; destruct (Hdistinct a b Ha Hb Hne); auto. }
  rewrite (Hrun _ _ Hl1 (Permutation_refl _)).
  rewrite (Hrun _ _ Hl2 (Permutation_sym Hperm)).
  cbv zeta.
  pose proof (Permutation_length (sorted_rev_perm py_lt score ps1)) as Hr.
  destruct (sorted_rev py_lt score ps1) as [|b [|sd [|th rest]]];
    simpl in Hr; try lia.
  eexists _, _, _, _, (slice_to (sorted_rev py_lt pts ps1) top_count),
    b, sd, th.
  split; [reflexivity|]. split; [reflexivity|].
  split; unfold is_list; simpl; rewrite lookup_app_r by lia;
    replace (S (length (heap s)) - length (heap s)) with 1 by lia;
    reflexivity.
Qed.
End PodiumInvariance.

(** ** The further properties on the example data *)

(** X2 on one kept row and one short row. *)
Lemma get_player_stats_counts_witness :
  exists ps skipped,
    is_list (fst (get_player_stats two_rows_names two_rows_stats
                    (mkState [] []))) 0 ps
    /\ length ps + skipped = 2.
Proof.
  destruct (get_player_stats_counts two_rows_names two_rows_stats
              (mkState [] [])
              (fst (get_player_stats two_rows_names two_rows_stats
                      (mkState [] []))) 0 eq_refl)
    as [ps [skipped [Hl [_ Hcount]]]].
  exists ps, skipped. split; [exact Hl|exact Hcount].
Defined.

Lemma example_parsed (p : loc) :
  In p [0; 1; 2] ->
  exists pl, is_player example_state p pl
             /\ is_Some (overall_score (F := ieee) pl).
Proof.
  intros Hp. destruct (example_players p Hp) as [pl [Hpl [_ [_ [Hsc _]]]]].
  exists pl. split; [exact Hpl|]. rewrite Hsc. eauto.
Defined.

(** X4 on the example store. *)
Lemma podium_from_input_witness :
  exists s' top_players tops best second third,
    calculate_mvp (F := ieee) 3 2 example_state
      = (s', Ok (top_players, best, second, third))
    /\ is_list s' top_players tops
    /\ best <> second /\ best <> third /\ second <> third /\ NoDup tops.
Proof.
  destruct (podium_from_input (F := ieee) example_state 3 [0; 1; 2] 2)
    as [s' [tp [tops [b [sd [th [Hrun [Hl [_ [_ [_ [_ Hdiff]]]]]]]]]]]].
  - reflexivity.
  - exact example_parsed.
  - simpl. lia.
  - exists s', tp, tops, b, sd, th. split; [exact Hrun|]. split; [exact Hl|].
    apply Hdiff, NoDup_ListNoDup. repeat constructor; simpl; lia.
Defined.

(** X5 on the example store with [top_count = -1]. *)
Lemma top_players_length_witness :
  exists s' top_players tops best second third,
    calculate_mvp (F := ieee) 3 (-1) example_state
      = (s', Ok (top_players, best, second, third))
    /\ is_list s' top_players tops
    /\ length tops = 2.
Proof.
  destruct (top_players_length (F := ieee) example_state 3 [0; 1; 2] (-1))
    as [s' [tp [tops [b [sd [th [Hrun [Hl [_ Hneg]]]]]]]]].
  - reflexivity.
  - exact example_parsed.
  - simpl. lia.
  - exists s', tp, tops, b, sd, th. split; [exact Hrun|]. split; [exact Hl|].
    apply Hneg. lia.
Defined.

(** X6 on the example store. *)
Lemma podium_dominates_witness :
  exists s' top_players best second third others,
    calculate_mvp (F := ieee) 3 2 example_state
      = (s', Ok (top_players, best, second, third))
    /\ Permutation (best :: second :: third :: others) [0; 1; 2]
    /\ (forall p, In p [0; 1; 2] ->
          PrimFloat.ltb (example_overall best) (example_overall p) = false).
Proof.
  destruct (podium_dominates (F := ieee) example_state 3 [0; 1; 2] 2
              example_overall)
    as [s' [tp [b [sd [th [rest [Hrun [Hperm [Hbest _]]]]]]]]].
  - reflexivity.
  - intros p Hp.
    destruct (example_players p Hp) as [pl [Hpl [_ [_ [Hsc Hnan]]]]].
    exists pl. auto.
  - simpl. lia.
  - exists s', tp, b, sd, th, rest. auto.
Defined.

(** X7 on the example store with [top_count = 2]. *)
Lemma top_players_dominate_witness :
  exists s' top_players tops others best second third,
    calculate_mvp (F := ieee) 3 2 example_state
      = (s', Ok (top_players, best, second, third))
    /\ is_list s' top_players tops
    /\ Permutation (tops ++ others) [0; 1; 2]
    /\ (forall a b, In a tops -> In b others ->
          PrimFloat.ltb (example_points a) (example_points b) = false).
Proof.
  apply (top_players_dominate (F := ieee) example_state 3 [0; 1; 2] 2
           example_points).
  - reflexivity.
  - intros p Hp.
    destruct (example_players p Hp) as [pl [Hpl [Hpts [Hnan [Hsc _]]]]].
    exists pl. repeat split; eauto.
  - simpl. lia.
Defined.

(** X8 on the store with a dict without points and a list in a list. *)
Lemma calculate_mvp_bad_item_witness :
  (exists s', calculate_mvp (F := ieee) 2 5 ragged_state
              = (s', Raise KeyError))
  /\ (exists s', calculate_mvp (F := ieee) 3 5 ragged_state
                 = (s', Raise TypeError)).
Proof.
  split.
  - destruct (calculate_mvp_bad_item (F := ieee) ragged_state 2 [0] 1 [] 5)
      as [Hkey _].
    + reflexivity.
    + intros q [<-|[]]. exists player_A. split; [reflexivity|].
      eexists. reflexivity.
    + apply (Hkey [("Player", "X"); ("Rebounds", "4")]); reflexivity.
  - destruct (calculate_mvp_bad_item (F := ieee) ragged_state 3 [0] 2 [] 5)
      as [_ Hlist].
    + reflexivity.
    + intros q [<-|[]]. exists player_A. split; [reflexivity|].
      eexists. reflexivity.
    + apply (Hlist [0; 1]). reflexivity.
Defined.

(** X9 on a dict with a ['Steals'] entry, 1.5 + 2 = 3.5, and on a dict
    with a ['Team'] entry that is no number. *)
Lemma key_overall_sums_entries_witness :
  key_overall (F := ieee) 4 ragged_state = (ragged_state, Ok 3.5%float)
  /\ key_overall (F := ieee) 5 ragged_state
     = (ragged_state, Raise ValueError).
Proof.
  split.
  - assert (Hkeys : List.NoDup ["Player"; "Points"; "Steals"]).
    { repeat constructor; simpl; intuition discriminate. }
    destruct (key_overall_sums_entries (F := ieee) ragged_state 4
                [("Player", "Y"); ("Points", "1.5"); ("Steals", "2")]
                eq_refl Hkeys) as [Hsum _].
    apply (Hsum [1.5%float; 2%float]). repeat constructor.
  - assert (Hkeys : List.NoDup ["Player"; "Points"; "Team"]).
    { repeat constructor; simpl; intuition discriminate. }
    destruct (key_overall_sums_entries (F := ieee) ragged_state 5
                [("Player", "Z"); ("Points", "1.5"); ("Team", "LAL")]
                eq_refl Hkeys) as [_ Hraise].
    apply Hraise. exists "LAL". split; [right; now left|reflexivity].
Defined.

(** X10 on the store with "LeBron King" and the patterns "KING" and "e". *)
Lemma filter_players_compose_witness :
  exists s1 filtered1 s2 filtered12,
    filter_players (R := literal_re) 2 "KING" king_state = (s1, Ok filtered1)
    /\ filter_players (R := literal_re) filtered1 "e" s1
       = (s2, Ok filtered12)
    /\ is_list s2 filtered12 [0].
Proof.
  destruct (filter_players_compose (R := literal_re) king_state 2 [0; 1]
              "KING" "e" (fun p => Nat.eqb p 0) (fun p => Nat.eqb p 0))
    as [s1 [f1 [s2 [f12 [_ [_ [_ [_ [Hrun1 [Hrun12 [_ [_ [Hlist _]]]]]]]]]]]]].
  - reflexivity.
  - intros p [<-|[<-|[]]]; [exists player_King|exists player_A];
      repeat split; reflexivity.
  - exists s1, f1, s2, f12. auto.
Defined.

(** X11 on the same store and the pattern "(", which is no pattern. *)
Lemma filter_players_raises_witness :
  filter_players (R := literal_re) 3 "(" short_state
  = (mkState (heap short_state ++ [OList []]) [], Ok 4)
  /\ exists s', filter_players (R := literal_re) 2 "(" king_state
                = (s', Raise re_error).
Proof.
  split.
  - apply (proj1 (filter_players_raises (R := literal_re) short_state 3
                    "(")).
    reflexivity.
  - apply (proj2 (filter_players_raises (R := literal_re) king_state 2 "(")
             [] 0 [1] player_King re_error); try reflexivity.
    intros q [].
Defined.



(** X16 on the example store and its reversed list. *)
Lemma ranking_permutation_invariant_witness :
  exists s1 s2 top1 top2 tops best second third,
    calculate_mvp (F := ieee) 3 2 reversal_state
      = (s1, Ok (top1, best, second, third))
    /\ calculate_mvp (F := ieee) 4 2 reversal_state
       = (s2, Ok (top2, best, second, third))
    /\ is_list s1 top1 tops /\ is_list s2 top2 tops.
Proof.
  apply (ranking_permutation_invariant (F := ieee) reversal_state 3 4
           [0; 1; 2] [2; 1; 0] 2 example_points example_overall).
  - reflexivity.
  - reflexivity.
  - apply (Permutation_rev [0; 1; 2]).
  - intros p Hp.
    destruct (example_players p Hp) as [pl [Hpl [Hpts [_ [Hsc _]]]]].
    exists pl. repeat split; eauto.
    unfold is_player, is_dict, reversal_state. simpl.
    destruct Hp as [<-|[<-|[<-|[]]]]; exact Hpl.
  - intros a b [<-|[<-|[<-|[]]]] [<-|[<-|[<-|[]]]] Hne;
      try congruence; vm_compute; auto.
  - simpl. lia.
Defined.
